(** * WhatsApp bridge: the instance registry, the stream connector, the event
    normalizer and the command client of [src/lib/whatsapp-bridge.ts], with the
    helpers of the Go service's HTTP handlers they talk to.

    The TypeScript class [WhatsAppBridge] keeps three mutable maps and reacts
    to callbacks (socket messages, socket closes, timers).  It is embedded
    here as a record of finite maps with explicit state passing: every method
    and every callback body is a function on that record.  Asynchronous
    commands return a completion (a value, or a thrown error) together with
    the new state. *)

From Stdlib Require Import ZArith String Ascii List Floats.
From stdpp Require Import base option list gmap strings.

#[local] Set Warnings "-register-all".
#[local] Open Scope string_scope.
#[local] Open Scope list_scope.

(** ** JavaScript values *)

Module Js.

(** The values that flow through the bridge: JSON data parsed from the
    remote service, and the results handed back to callers.  A JS number is
    an IEEE-754 binary64, which is what [float] is. *)
#[local] Unset Elimination Schemes.
Inductive JsVal : Type :=
| JUndef
| JNull
| JBool (b : bool)
| JNum (x : float)
| JStr (s : string)
| JArr (items : list JsVal)
| JObj (fields : gmap string JsVal).
#[local] Set Elimination Schemes.

(** A [Record<string, unknown>]: an object read by property name. *)
Abbreviation JsObject := (gmap string JsVal).

(** [o.k] for a data object: [undefined] when the property is absent. *)
Definition prop (o : JsObject) (k : string) : JsVal := default JUndef (o !! k).

(** An optional string argument or field, as the value JS sees. *)
Definition of_opt_string (o : option string) : JsVal :=
  match o with Some s => JStr s | None => JUndef end.

(** [v ?? d] *)
Definition nullish_coalesce (v d : JsVal) : JsVal :=
  match v with JUndef | JNull => d | _ => v end.

(** A thrown error: its class name and its message. *)
Record JsError : Type := MkError { err_name : string; err_message : string }.

(** [new Error(msg)] *)
Definition Error (msg : string) : JsError := MkError "Error" msg.

(** What reading a property of [undefined] throws. *)
Definition TypeError_undefined (k : string) : JsError :=
  MkError "TypeError" ("Cannot read properties of undefined (reading '" +:+ k +:+ "')").

(** How a call ends: it returns, or it throws.  For an [async] method these
    are the fulfilled and the rejected promise. *)
Inductive Completion (A : Type) : Type :=
| Return (a : A)
| Throw (e : JsError).
Arguments Return {A} a.
Arguments Throw {A} e.

(** The regular expression class [\d], that is [[0-9]], and its
    complement [\D].  A JS string is a sequence of UTF-16 code units and is
    written here by the bytes of its UTF-8 form: a character outside ASCII
    is made of code units outside [[0-9]] there and of bytes outside
    [[0-9]] here, so [\D] takes the same characters in both. *)
Definition class_d (c : ascii) : bool :=
  (Ascii.leb "0" c && Ascii.leb c "9")%char.

Definition class_D (c : ascii) : bool := negb (class_d c).

(** [s.replace(/C/g, replacement)] for a one-character class [C]: every
    character of the class is replaced, the others are kept. *)
Fixpoint replace_global (cls : ascii → bool) (replacement s : string) : string :=
  match s with
  | EmptyString => EmptyString
  | String c rest =>
      if cls c
      then replacement +:+ replace_global cls replacement rest
      else String c (replace_global cls replacement rest)
  end.

End Js.
Export Js.

(** ** The Go service's helpers (the HTTP handlers file) *)

Module Go.

(** The uniform envelope both sides agree on:
    [{ success: bool, error?: string, data?: T }]. *)
Record Envelope : Type := MkEnvelope {
  success : bool;
  error : option string;
  data : option JsObject;
}.

(** What [jsonResponse] writes: a status code and the encoded envelope. *)
Record HttpResponse : Type := MkHttpResponse {
  http_status : Z;
  http_body : Envelope;
}.

Definition jsonResponse (status : Z) (body : Envelope) : HttpResponse :=
  MkHttpResponse status body.

Definition errorResponse (status : Z) (message : string) : HttpResponse :=
  jsonResponse status (MkEnvelope false (Some message) None).

Definition StatusOK : Z := 200.

Definition successResponse (d : JsObject) : HttpResponse :=
  jsonResponse StatusOK (MkEnvelope true None (Some d)).

(** [c >= '0' && c <= '9'] *)
Definition is_digit (c : ascii) : bool :=
  (Ascii.leb "0" c && Ascii.leb c "9")%char.

(** [cleanPhoneNumber]: the loop appends every digit to [result].
    A Go string is a byte sequence and [range] walks its runes; a byte of a
    multi-byte rune is never an ASCII digit, and the rune is dropped whole,
    so walking the bytes builds the same [result]. *)
Definition cleanPhoneNumber (number : string) : string :=
  fold_left
    (fun result c => if is_digit c then result +:+ String c "" else result)
    (list_ascii_of_string number) "".

End Go.

(** ** Data model of the bridge *)

(** [WAInstance].  The optional fields hold [JUndef] while absent; [status]
    is whatever was last stored in it (a string literal written by the bridge,
    or the remote service's [data.status] taken as it came). *)
Record WAInstance : Type := MkInstance {
  id : string;
  status : JsVal;
  qrCode : JsVal;
  qrCodeBase64 : JsVal;
  waNumber : JsVal;
  waName : JsVal;
}.

(** [WhatsmeowEvent], a parsed message of the streaming channel. *)
Record WhatsmeowEvent : Type := MkEvent {
  ev_type : string;
  ev_instanceId : string;
  ev_data : JsObject;
  ev_timestamp : float;
}.

(** The first argument of [emit].  It is an event name, except when the raw
    type names a member that the [eventMap] literal inherits from
    [Object.prototype]: the lookup then finds that member. *)
Inductive EmitKey : Type :=
| EvName (name : string)
| EvInherited (member : string).

(** One call of [this.emit(key, payload)]. *)
Record Emission : Type := MkEmission {
  em_key : EmitKey;
  em_payload : JsObject;
}.

(** A request handed to [fetch]: the path after [baseUrl], the method and the
    object that [JSON.stringify] encodes as the body. *)
Record Request : Type := MkRequest {
  req_path : string;
  req_method : string;
  req_body : option JsObject;
}.

(** How [fetch] and then [response.json()] end. *)
Inductive FetchOutcome : Type :=
| FetchRejected (e : JsError)
| JsonRejected (status : Z) (e : JsError)
| Responded (r : Go.HttpResponse).

(** A [WebSocket] object: the [instanceId] its handlers closed over and how
    far it is in its life ([close()] not yet called, called, close event
    delivered). *)
Inductive ReadyState : Type := Live | Closing | Closed.

Record Socket : Type := MkSocket {
  ws_instanceId : string;
  ws_state : ReadyState;
}.

(** A timer made by [setTimeout]. *)
Inductive TimerState : Type := Pending | Cleared | Fired.

Record Timeout : Type := MkTimeout {
  tm_instanceId : string;
  tm_delay : Z;
  tm_state : TimerState;
}.

(** The bridge object and the runtime objects it created.  [sockets] and
    [timeouts] are the heaps of [WebSocket] and timer objects; a handle is the
    position in the heap, so two connections of one instance are told apart.
    [emitted] and [requests] record the calls of [emit] and [fetch] in order. *)
Record Bridge : Type := MkBridge {
  wsConnections : gmap string nat;
  instances : gmap string WAInstance;
  reconnectTimers : gmap string nat;
  sockets : list Socket;
  timeouts : list Timeout;
  emitted : list Emission;
  requests : list Request;
}.

Definition empty_bridge : Bridge := MkBridge ∅ ∅ ∅ [] [] [] [].

#[global] Instance ReadyState_eq_dec : EqDecision ReadyState.
Proof. solve_decision. Defined.

#[global] Instance TimerState_eq_dec : EqDecision TimerState.
Proof. solve_decision. Defined.

(** Field updates. *)
Definition set_wsConnections (f : gmap string nat → gmap string nat) (b : Bridge) : Bridge :=
  MkBridge (f (wsConnections b)) (instances b) (reconnectTimers b)
           (sockets b) (timeouts b) (emitted b) (requests b).

Definition set_instances (f : gmap string WAInstance → gmap string WAInstance) (b : Bridge) : Bridge :=
  MkBridge (wsConnections b) (f (instances b)) (reconnectTimers b)
           (sockets b) (timeouts b) (emitted b) (requests b).

Definition set_reconnectTimers (f : gmap string nat → gmap string nat) (b : Bridge) : Bridge :=
  MkBridge (wsConnections b) (instances b) (f (reconnectTimers b))
           (sockets b) (timeouts b) (emitted b) (requests b).

Definition set_sockets (f : list Socket → list Socket) (b : Bridge) : Bridge :=
  MkBridge (wsConnections b) (instances b) (reconnectTimers b)
           (f (sockets b)) (timeouts b) (emitted b) (requests b).

Definition set_timeouts (f : list Timeout → list Timeout) (b : Bridge) : Bridge :=
  MkBridge (wsConnections b) (instances b) (reconnectTimers b)
           (sockets b) (f (timeouts b)) (emitted b) (requests b).

Definition set_emitted (f : list Emission → list Emission) (b : Bridge) : Bridge :=
  MkBridge (wsConnections b) (instances b) (reconnectTimers b)
           (sockets b) (timeouts b) (f (emitted b)) (requests b).

Definition set_requests (f : list Request → list Request) (b : Bridge) : Bridge :=
  MkBridge (wsConnections b) (instances b) (reconnectTimers b)
           (sockets b) (timeouts b) (emitted b) (f (requests b)).

(** ** Commands: state and exceptions

    A command runs on the bridge, may change it, and returns or throws. *)

Definition Cmd (A : Type) : Type := Bridge → Completion A * Bridge.

Definition ret {A} (a : A) : Cmd A := λ b, (Return a, b).

Definition throw {A} (e : JsError) : Cmd A := λ b, (Throw e, b).

Definition bind {A B} (c : Cmd A) (k : A → Cmd B) : Cmd B :=
  λ b, match c b with
       | (Return a, b') => k a b'
       | (Throw e, b') => (Throw e, b')
       end.

(** A synchronous step that cannot throw. *)
Definition effect (f : Bridge → Bridge) : Cmd unit := λ b, (Return tt, f b).

Notation "'let*' x ':=' c 'in' k" := (bind c (λ x, k))
  (at level 10, x binder, c at level 100, k at level 200).
Notation "c ';;;' k" := (bind c (λ _, k))
  (at level 100, k at level 200, right associativity).

(** ** Upstream command client: [request] *)

(** [data.error || 'Request failed'] *)
Definition failure_message (e : option string) : string :=
  match e with
  | Some s => if decide (s = "") then "Request failed" else s
  | None => "Request failed"
  end.

(** [request]: one call of [fetch], recorded in [requests].  A rejection of
    [fetch] or of [response.json()] is caught, logged and thrown again as it
    is.  The HTTP status is not looked at.  A body that parses is read at the
    type the source casts it to, the envelope. *)
Definition request (fetch : Request → FetchOutcome) (req : Request) : Cmd (option JsObject) :=
  λ b,
    let b' := set_requests (λ l, l ++ [req]) b in
    match fetch req with
    | FetchRejected e => (Throw e, b')
    | JsonRejected _ e => (Throw e, b')
    | Responded r =>
        let env := Go.http_body r in
        if Go.success env
        then (Return (Go.data env), b')
        else (Throw (Error (failure_message (Go.error env))), b')
    end.

(** [d.k] where [d] is what [request] returned: reading a property of
    [undefined] throws. *)
Definition field (d : option JsObject) (k : string) : Cmd JsVal :=
  match d with
  | Some o => ret (prop o k)
  | None => throw (TypeError_undefined k)
  end.

(** [instance.status = 'disconnected'] *)
Definition mark_disconnected (i : WAInstance) : WAInstance :=
  MkInstance (id i) (JStr "disconnected") (qrCode i) (qrCodeBase64 i)
             (waNumber i) (waName i).

(** ** Stream connector *)

Section Connector.

(** Whether [new WebSocket(wsUrl)] returns for this instance id; when it
    throws, [connectWebSocket] logs and registers nothing. *)
Variable ws_constructs : string → bool.

(** A socket object after [close()]: a live socket starts closing, a
    closing or closed one stays as it is. *)
Definition closing (w : Socket) : Socket :=
  MkSocket (ws_instanceId w)
           (match ws_state w with Live => Closing | st => st end).

(** [ws.close()] *)
Definition close_socket (s : nat) (b : Bridge) : Bridge :=
  set_sockets (alter closing s) b.

(** A timer after [clearTimeout]: a pending timer will not fire. *)
Definition cleared (tm : Timeout) : Timeout :=
  MkTimeout (tm_instanceId tm) (tm_delay tm)
            (match tm_state tm with Pending => Cleared | st => st end).

(** [clearTimeout(timer)] *)
Definition clearTimeout (t : nat) (b : Bridge) : Bridge :=
  set_timeouts (alter cleared t) b.

(** [disconnectWebSocket] *)
Definition disconnectWebSocket (instanceId : string) (b : Bridge) : Bridge :=
  let b1 :=
    match wsConnections b !! instanceId with
    | Some ws => set_wsConnections (delete instanceId) (close_socket ws b)
    | None => b
    end in
  match reconnectTimers b1 !! instanceId with
  | Some timer => set_reconnectTimers (delete instanceId) (clearTimeout timer b1)
  | None => b1
  end.

(** [connectWebSocket]: the new socket's handlers close over [instanceId];
    they are [ws_onmessage] and [ws_onclose] below. *)
Definition connectWebSocket (instanceId : string) (b : Bridge) : Bridge :=
  let b1 := disconnectWebSocket instanceId b in
  if ws_constructs instanceId then
    let ws := length (sockets b1) in
    set_wsConnections (<[instanceId := ws]>)
      (set_sockets (λ l, l ++ [MkSocket instanceId Live]) b1)
  else b1.

(** ** Event normalizer: [handleEvent] *)

(** The branch that updates the registry record of the instance. *)
Definition update_instance (type : string) (data : JsObject) (i : WAInstance) : WAInstance :=
  if decide (type = "qr") then
    MkInstance (id i) (JStr "qr") (prop data "qr") (prop data "qrBase64")
               (waNumber i) (waName i)
  else if decide (type = "ready") then
    MkInstance (id i) (JStr "connected") JUndef JUndef
               (prop data "number") (prop data "name")
  else if decide (type = "disconnected" ∨ type = "logged_out") then
    mark_disconnected i
  else i.

(** The own properties of the [eventMap] literal. *)
Definition eventMap : gmap string string :=
  {[ "qr" := "qr";
     "ready" := "ready";
     "connected" := "authenticated";
     "disconnected" := "disconnected";
     "logged_out" := "auth_failure";
     "message" := "message";
     "message_ack" := "message_ack" ]}.

(** What an object literal inherits from [Object.prototype]. *)
Definition object_prototype_members : list string :=
  [ "constructor"; "__proto__"; "hasOwnProperty"; "isPrototypeOf";
    "propertyIsEnumerable"; "toLocaleString"; "toString"; "valueOf";
    "__defineGetter__"; "__defineSetter__"; "__lookupGetter__";
    "__lookupSetter__" ].

(** [eventMap[type] || type] *)
Definition mappedEvent (type : string) : EmitKey :=
  match eventMap !! type with
  | Some name => EvName name
  | None =>
      if bool_decide (type ∈ object_prototype_members)
      then EvInherited type
      else EvName type
  end.

(** [{ instanceId, ...data }]: the properties of [data] are copied after
    [instanceId] is set, so a property of [data] of that name replaces it. *)
Definition payload_of (instanceId : string) (data : JsObject) : JsObject :=
  data ∪ {[ "instanceId" := JStr instanceId ]}.

(** [handleEvent].  The record in [instances] is mutated in place. *)
Definition handleEvent (event : WhatsmeowEvent) (b : Bridge) : Bridge :=
  let type := ev_type event in
  let instanceId := ev_instanceId event in
  let data := ev_data event in
  let b1 := set_instances (alter (update_instance type data) instanceId) b in
  set_emitted (λ l, l ++ [MkEmission (mappedEvent type) (payload_of instanceId data)]) b1.

(** ** Callbacks installed by [connectWebSocket] *)

(** [ws.onmessage] on a message that parsed to an event of the declared
    shape ([Some]), or on one for which [JSON.parse] threw ([None]: the
    handler logs and goes on).  Which socket delivered the message plays no
    part.  The source casts what it parsed without a check; a parsed message
    whose [data] is missing is [Dataless] below. *)
Definition ws_onmessage (ws : nat) (parsed : option WhatsmeowEvent) (b : Bridge) : Bridge :=
  match parsed with
  | Some event => handleEvent event b
  | None => b
  end.

(** The delay of the reconnect timer, in milliseconds. *)
Definition reconnect_delay : Z := 5000.

(** [ws.onclose] of socket [ws]: unregisters whatever connection the
    instance has and schedules the reconnect timer. *)
Definition ws_onclose (ws : nat) (b : Bridge) : Bridge :=
  match sockets b !! ws with
  | Some w =>
      let instanceId := ws_instanceId w in
      let b1 := set_sockets (<[ws := MkSocket instanceId Closed]>) b in
      let b2 := set_wsConnections (delete instanceId) b1 in
      let timer := length (timeouts b2) in
      set_reconnectTimers (<[instanceId := timer]>)
        (set_timeouts (λ l, l ++ [MkTimeout instanceId reconnect_delay Pending]) b2)
  | None => b
  end.

(** The body of the timer callback. *)
Definition reconnect_callback (instanceId : string) (b : Bridge) : Bridge :=
  if bool_decide (is_Some (instances b !! instanceId))
  then connectWebSocket instanceId b
  else b.

(** Timer [t] fires: only a pending timer runs its callback. *)
Definition timer_fire (t : nat) (b : Bridge) : Bridge :=
  match timeouts b !! t with
  | Some tm =>
      match tm_state tm with
      | Pending =>
          reconnect_callback (tm_instanceId tm)
            (set_timeouts (<[t := MkTimeout (tm_instanceId tm) (tm_delay tm) Fired]>) b)
      | _ => b
      end
  | None => b
  end.

End Connector.

(** ** Public methods of the bridge *)

(** [options?: { caption?: string; filename?: string }] *)
Record MediaOptions : Type := MkMediaOptions {
  caption : option string;
  filename : option string;
}.

Section Commands.

Variable ws_constructs : string → bool.

(** What [fetch] answers to a request. *)
Variable fetch : Request → FetchOutcome.

(** [`/instance/${instanceId}/${action}`], a [POST] without a body. *)
Definition instanceRequest (instanceId action : string) : Request :=
  MkRequest ("/instance/" +:+ instanceId +:+ "/" +:+ action) "POST" None.

(** [connect].  A second [connect] of an id replaces its record.  The caller
    is handed the record that the registry holds. *)
Definition connect (instanceId : string) : Cmd WAInstance :=
  let* data := request fetch (instanceRequest instanceId "connect") in
  let* data_status := field data "status" in
  let* data_qrCode := field data "qrCode" in
  let* data_waNumber := field data "waNumber" in
  let instance := MkInstance instanceId data_status JUndef data_qrCode data_waNumber JUndef in
  effect (set_instances (<[instanceId := instance]>)) ;;;
  effect (connectWebSocket ws_constructs instanceId) ;;;
  ret instance.

(** [disconnect] *)
Definition disconnect (instanceId : string) : Cmd unit :=
  let* _ := request fetch (instanceRequest instanceId "disconnect") in
  effect (set_instances (alter mark_disconnected instanceId)).

(** [logout] *)
Definition logout (instanceId : string) : Cmd unit :=
  let* _ := request fetch (instanceRequest instanceId "logout") in
  effect (disconnectWebSocket instanceId) ;;;
  effect (set_instances (delete instanceId)).

(** [deleteInstance] *)
Definition deleteInstance (instanceId : string) : Cmd unit := logout instanceId.

(** *** Message methods *)

(** The reading of [Date.now()], in milliseconds. *)
Variable now : float.

Definition textRequest (instanceId cleanedNumber text : string) : Request :=
  MkRequest "/message/text" "POST"
    (Some {[ "instanceId" := JStr instanceId; "to" := JStr cleanedNumber;
             "text" := JStr text ]}).

(** [sendText] *)
Definition sendText (instanceId to text : string) : Cmd JsObject :=
  let cleanedNumber := replace_global class_D "" to in
  let* data := request fetch (textRequest instanceId cleanedNumber text) in
  let* messageId := field data "messageId" in
  ret {[ "id" := messageId; "from" := JStr ""; "to" := JStr cleanedNumber;
         "body" := JStr text; "type" := JStr "text";
         "timestamp" := JNum (now / 1000)%float; "fromMe" := JBool true ]}.

Definition mediaRequest (instanceId cleanedNumber mediaUrl : string)
    (options : option MediaOptions) : Request :=
  MkRequest "/message/media" "POST"
    (Some {[ "instanceId" := JStr instanceId; "to" := JStr cleanedNumber;
             "mediaUrl" := JStr mediaUrl;
             "caption" := of_opt_string (options ≫= caption) ]}).

(** [sendMedia] *)
Definition sendMedia (instanceId to mediaUrl : string)
    (options : option MediaOptions) : Cmd JsObject :=
  let cleanedNumber := replace_global class_D "" to in
  let* data := request fetch (mediaRequest instanceId cleanedNumber mediaUrl options) in
  let* messageId := field data "messageId" in
  ret {[ "id" := messageId; "to" := JStr cleanedNumber; "type" := JStr "media";
         "fromMe" := JBool true ]}.

(** [sendMediaBase64] *)
Definition sendMediaBase64 (instanceId to base64 mimetype : string)
    (options : option MediaOptions) : Cmd JsObject :=
  let dataUrl := "data:" +:+ mimetype +:+ ";base64," +:+ base64 in
  sendMedia instanceId to dataUrl options.

Definition locationRequest (instanceId cleanedNumber : string)
    (latitude longitude : float) (description : option string) : Request :=
  MkRequest "/message/location" "POST"
    (Some {[ "instanceId" := JStr instanceId; "to" := JStr cleanedNumber;
             "latitude" := JNum latitude; "longitude" := JNum longitude;
             "description" := of_opt_string description ]}).

(** [sendLocation] *)
Definition sendLocation (instanceId to : string) (latitude longitude : float)
    (description : option string) : Cmd JsObject :=
  let cleanedNumber := replace_global class_D "" to in
  let* data := request fetch
                 (locationRequest instanceId cleanedNumber latitude longitude description) in
  let* messageId := field data "messageId" in
  ret {[ "id" := messageId; "to" := JStr cleanedNumber; "type" := JStr "location";
         "fromMe" := JBool true ]}.

Definition presenceRequest (instanceId cleanedNumber presence : string) : Request :=
  MkRequest "/message/presence" "POST"
    (Some {[ "instanceId" := JStr instanceId; "to" := JStr cleanedNumber;
             "presence" := JStr presence ]}).

(** [sendPresence] *)
Definition sendPresence (instanceId to presence : string) : Cmd unit :=
  let cleanedNumber := replace_global class_D "" to in
  let* _ := request fetch (presenceRequest instanceId cleanedNumber presence) in
  ret tt.

End Commands.

(** *** Lookups *)

(** [getInstance]; [None] is [undefined]. *)
Definition getInstance (instanceId : string) (b : Bridge) : option WAInstance :=
  instances b !! instanceId.

(** [getClient] *)
Definition getClient (instanceId : string) (b : Bridge) : option WAInstance :=
  instances b !! instanceId.

(** [getStatus]: [instance?.status ?? 'not_found'] *)
Definition getStatus (instanceId : string) (b : Bridge) : JsVal :=
  let instance := instances b !! instanceId in
  nullish_coalesce (default JUndef (status <$> instance)) (JStr "not_found").

(** The object [getQRCode] builds. *)
Record QRCode : Type := MkQRCode { qr : JsVal; qrBase64 : JsVal }.

(** [getQRCode] *)
Definition getQRCode (instanceId : string) (b : Bridge) : QRCode :=
  let instance := instances b !! instanceId in
  MkQRCode (default JUndef (qrCode <$> instance))
           (default JUndef (qrCodeBase64 <$> instance)).

(** *** Methods for what the remote service does not offer

    None of them reads its arguments or the bridge; each body is a constant
    (some log a warning first).  A method is named by a constructor and
    [call_stub] gives how its call ends. *)

Inductive Stub : Type :=
| sendContact | getLabels | addLabelToChat | removeLabelFromChat
| loadInstanceSettings | setProfileName | setStatus | setProfilePicture
| sendPoll | editMessage | reactToMessage | deleteMessage | downloadMedia
| getContacts | getContactById | isRegisteredUser | blockContact
| unblockContact | getBlockedContacts | getChats | getChatById
| archiveChat | unarchiveChat | pinChat | unpinChat | muteChat | unmuteChat
| deleteChat | searchMessages | getGroups | createGroup | getGroupInfo
| addParticipants | removeParticipants | promoteParticipants
| demoteParticipants | leaveGroup | getInviteCode | getProfilePicUrl
| setGroupSubject | setGroupDescription | revokeInviteCode
| joinGroupByInviteCode | getChatMessages.

(** [throw new Error('Not implemented')] *)
Definition not_implemented : JsError := Error "Not implemented".

Definition call_stub (m : Stub) : Completion JsVal :=
  match m with
  | sendContact => Return (JObj ∅)
  | getLabels => Return (JArr [])
  | addLabelToChat => Return JUndef
  | removeLabelFromChat => Return JUndef
  | loadInstanceSettings => Return JUndef
  | setProfileName => Return JUndef
  | setStatus => Return JUndef
  | setProfilePicture => Return JUndef
  | sendPoll => Throw not_implemented
  | editMessage => Throw not_implemented
  | reactToMessage => Throw not_implemented
  | deleteMessage => Throw not_implemented
  | downloadMedia => Throw not_implemented
  | getContacts => Return (JArr [])
  | getContactById => Throw not_implemented
  | isRegisteredUser => Return (JBool true)
  | blockContact => Throw not_implemented
  | unblockContact => Throw not_implemented
  | getBlockedContacts => Return (JArr [])
  | getChats => Return (JArr [])
  | getChatById => Throw not_implemented
  | archiveChat => Throw not_implemented
  | unarchiveChat => Throw not_implemented
  | pinChat => Throw not_implemented
  | unpinChat => Throw not_implemented
  | muteChat => Throw not_implemented
  | unmuteChat => Throw not_implemented
  | deleteChat => Throw not_implemented
  | searchMessages => Return (JArr [])
  | getGroups => Return (JArr [])
  | createGroup => Throw not_implemented
  | getGroupInfo => Throw not_implemented
  | addParticipants => Throw not_implemented
  | removeParticipants => Throw not_implemented
  | promoteParticipants => Throw not_implemented
  | demoteParticipants => Throw not_implemented
  | leaveGroup => Throw not_implemented
  | getInviteCode => Throw not_implemented
  | getProfilePicUrl => Return JNull
  | setGroupSubject => Throw not_implemented
  | setGroupDescription => Throw not_implemented
  | revokeInviteCode => Throw not_implemented
  | joinGroupByInviteCode => Throw not_implemented
  | getChatMessages => Return (JArr [])
  end.

(** Every method of the block, in source order. *)
Definition all_stubs : list Stub :=
  [ sendContact; getLabels; addLabelToChat; removeLabelFromChat;
    loadInstanceSettings; setProfileName; setStatus; setProfilePicture;
    sendPoll; editMessage; reactToMessage; deleteMessage; downloadMedia;
    getContacts; getContactById; isRegisteredUser; blockContact;
    unblockContact; getBlockedContacts; getChats; getChatById;
    archiveChat; unarchiveChat; pinChat; unpinChat; muteChat; unmuteChat;
    deleteChat; searchMessages; getGroups; createGroup; getGroupInfo;
    addParticipants; removeParticipants; promoteParticipants;
    demoteParticipants; leaveGroup; getInviteCode; getProfilePicUrl;
    setGroupSubject; setGroupDescription; revokeInviteCode;
    joinGroupByInviteCode; getChatMessages ].

(** The methods that throw. *)
Definition throwing_stubs : list Stub :=
  [ sendPoll; editMessage; reactToMessage; deleteMessage; downloadMedia;
    getContactById; blockContact; unblockContact; getChatById; archiveChat;
    unarchiveChat; pinChat; unpinChat; muteChat; unmuteChat; deleteChat;
    createGroup; getGroupInfo; addParticipants; removeParticipants;
    promoteParticipants; demoteParticipants; leaveGroup; getInviteCode;
    setGroupSubject; setGroupDescription; revokeInviteCode;
    joinGroupByInviteCode ].

(** The methods that return an empty list. *)
Definition empty_list_stubs : list Stub :=
  [ getLabels; getContacts; getBlockedContacts; getChats; searchMessages;
    getGroups; getChatMessages ].

(** The methods that do nothing and return [undefined]. *)
Definition no_op_stubs : list Stub :=
  [ addLabelToChat; removeLabelFromChat; loadInstanceSettings; setProfileName;
    setStatus; setProfilePicture ].

(** The results that stand for "nothing": [{}], [[]], [undefined], [null]. *)
Definition empty_result (v : JsVal) : bool :=
  match v with
  | JObj fields => bool_decide (size fields = 0)
  | JArr [] | JUndef | JNull => true
  | _ => false
  end.

(** ** What can happen to a bridge

    A command is called, or the runtime runs one of the callbacks: a message
    or the close of a socket that has not yet delivered its close event, or a
    pending timer. *)

(** A call of one of the commands that reach the remote service. *)
Inductive Command : Type :=
| Connect (instanceId : string)
| Disconnect (instanceId : string)
| Logout (instanceId : string)
| DeleteInstance (instanceId : string)
| SendText (instanceId to text : string)
| SendMedia (instanceId to mediaUrl : string) (options : option MediaOptions)
| SendMediaBase64 (instanceId to base64 mimetype : string) (options : option MediaOptions)
| SendLocation (instanceId to : string) (latitude longitude : float)
    (description : option string)
| SendPresence (instanceId to presence : string).

Inductive Action : Type :=
| Call (fetch : Request → FetchOutcome) (now : float) (c : Command)
| OnMessage (ws : nat) (parsed : option WhatsmeowEvent)
| OnClose (ws : nat)
| OnTimer (t : nat).

(** The error a call ended with, if it threw. *)
Definition thrown {A} (c : Completion A) : option JsError :=
  match c with Throw e => Some e | Return _ => None end.

(** A command with its result dropped: what is left is whether it threw. *)
Definition drop_result {A} (c : Cmd A) : Cmd unit :=
  λ b, match c b with
       | (Return _, b') => (Return tt, b')
       | (Throw e, b') => (Throw e, b')
       end.

Section Runtime.

Variable ws_constructs : string → bool.

Definition call (fetch : Request → FetchOutcome) (now : float) (c : Command) : Cmd unit :=
  match c with
  | Connect instanceId => drop_result (connect ws_constructs fetch instanceId)
  | Disconnect instanceId => disconnect fetch instanceId
  | Logout instanceId => logout fetch instanceId
  | DeleteInstance instanceId => deleteInstance fetch instanceId
  | SendText instanceId to text => drop_result (sendText fetch now instanceId to text)
  | SendMedia instanceId to mediaUrl options =>
      drop_result (sendMedia fetch instanceId to mediaUrl options)
  | SendMediaBase64 instanceId to base64 mimetype options =>
      drop_result (sendMediaBase64 fetch instanceId to base64 mimetype options)
  | SendLocation instanceId to latitude longitude description =>
      drop_result (sendLocation fetch instanceId to latitude longitude description)
  | SendPresence instanceId to presence => sendPresence fetch instanceId to presence
  end.

Definition socket_open (ws : nat) (b : Bridge) : bool :=
  match sockets b !! ws with
  | Some w => bool_decide (ws_state w ≠ Closed)
  | None => false
  end.

Definition timer_pending (t : nat) (b : Bridge) : bool :=
  match timeouts b !! t with
  | Some tm => bool_decide (tm_state tm = Pending)
  | None => false
  end.

Definition enabled (a : Action) (b : Bridge) : bool :=
  match a with
  | Call _ _ _ => true
  | OnMessage ws _ => socket_open ws b
  | OnClose ws => socket_open ws b
  | OnTimer t => timer_pending t b
  end.

Definition run (a : Action) (b : Bridge) : Bridge :=
  match a with
  | Call fetch now c => (call fetch now c b).2
  | OnMessage ws parsed => ws_onmessage ws parsed b
  | OnClose ws => ws_onclose ws b
  | OnTimer t => timer_fire ws_constructs t b
  end.

(** Runs the actions in order; [None] when one of them cannot happen. *)
Fixpoint run_trace (tr : list Action) (b : Bridge) : option Bridge :=
  match tr with
  | [] => Some b
  | a :: rest => if enabled a b then run_trace rest (run a b) else None
  end.

Definition reachable (b : Bridge) : Prop :=
  ∃ tr, run_trace tr empty_bridge = Some b.

(** Socket [ws] was replaced: its instance has another socket registered. *)
Definition superseded (ws : nat) (b : Bridge) : Prop :=
  ∃ w current,
    sockets b !! ws = Some w ∧
    wsConnections b !! ws_instanceId w = Some current ∧
    current ≠ ws.

(** The instance has a pairing code stored. *)
Definition carries_pairing_code (i : WAInstance) : Prop :=
  qrCode i ≠ JUndef ∨ qrCodeBase64 i ≠ JUndef.

End Runtime.

(** The one request a command hands to [fetch]. *)
Definition issues {A} (c : Cmd A) (b : Bridge) (r : Request) : Prop :=
  requests (c b).2 = requests b ++ [r].

(** The destination a request carries. *)
Definition req_to (r : Request) : option JsVal :=
  req_body r ≫= (λ o, o !! "to").

(** An instance waiting for its pairing code to be scanned. *)
Definition pairing_bridge : Bridge :=
  MkBridge {[ "acct1" := 0 ]}
           {[ "acct1" := MkInstance "acct1" (JStr "qr") (JStr "2@abc")
                           (JStr "data:image/png;base64,AAAA") JUndef JUndef ]}
           ∅ [MkSocket "acct1" Live] [] [] [].

(** The handles the bridge holds point into the heaps, at objects made for
    the same instance. *)
Definition well_formed (b : Bridge) : Prop :=
  (∀ instanceId ws, wsConnections b !! instanceId = Some ws →
     ∃ w, sockets b !! ws = Some w ∧ ws_instanceId w = instanceId)
  ∧ (∀ instanceId t, reconnectTimers b !! instanceId = Some t →
       ∃ tm, timeouts b !! t = Some tm ∧ tm_instanceId tm = instanceId).

(** ** Sample environments *)

(** Every socket can be constructed. *)
Definition always_constructs : string → bool := λ _, true.

(** The remote service answers every request with [successResponse d]. *)
Definition answers (d : JsObject) : Request → FetchOutcome :=
  λ _, Responded (Go.successResponse d).

(** The remote service answers every request with [errorResponse]. *)
Definition refuses (status : Z) (message : string) : Request → FetchOutcome :=
  λ _, Responded (Go.errorResponse status message).

(** Whether the remote service answers this request with [success: true]. *)
Definition accepted (fetch : Request → FetchOutcome) (req : Request) : bool :=
  match fetch req with
  | Responded r => Go.success (Go.http_body r)
  | _ => false
  end.

(** A new socket object was created between [b] and [b']. *)
Definition opens_connection (b b' : Bridge) : Prop :=
  length (sockets b) < length (sockets b').

(** [connect] answered while pairing, then a pairing code streamed in, then
    one more action. *)
Definition pairing_trace (last : Action) : list Action :=
  [ Call (answers {[ "status" := JStr "connecting"; "qrCode" := JStr "";
                     "waNumber" := JStr "" ]}) 0 (Connect "acct1");
    OnMessage 0 (Some (MkEvent "qr" "acct1"
                         {[ "qr" := JStr "2@abc";
                            "qrBase64" := JStr "data:image/png;base64,AAAA" ]} 0));
    last ].

(** A streamed message stamped by the remote service, with no timestamp in
    its data. *)
Definition sample_message : WhatsmeowEvent :=
  MkEvent "message" "acct1" {[ "body" := JStr "hi" ]} 1700000000000.

(** [connect] called twice for one instance. *)
Definition reconnect_trace : list Action :=
  [ Call (answers {[ "status" := JStr "connecting"; "qrCode" := JStr "";
                     "waNumber" := JStr "" ]}) 0 (Connect "acct1");
    Call (answers {[ "status" := JStr "connecting"; "qrCode" := JStr "";
                     "waNumber" := JStr "" ]}) 0 (Connect "acct1") ].

(** [connect] answered with a pairing code, then the phone scanned it. *)
Definition ready_trace : list Action :=
  [ Call (answers {[ "status" := JStr "qr"; "qrCode" := JStr "ABCD-1234";
                     "waNumber" := JStr "" ]}) 0 (Connect "acct1");
    OnMessage 0 (Some (MkEvent "ready" "acct1"
                         {[ "number" := JStr "15551234567";
                            "name" := JStr "Alice" ]} 0)) ].

(** ** The specification's wording, for comparison *)

(** The decimal digits. *)
Definition decimal_digits : list ascii :=
  [ "0"; "1"; "2"; "3"; "4"; "5"; "6"; "7"; "8"; "9" ]%char.

(** The subsequence of the decimal digits of [s], in their order. *)
Definition digits_of (s : string) : string :=
  string_of_list_ascii
    (filter (λ c, c ∈ decimal_digits) (list_ascii_of_string s)).

(** ** The Go service's HTTP handlers

    The handlers of the Go file, as functions from what they read (the route
    variable, the decoded body, the answers of the session manager) to the
    response they write.  The session manager is in another package; its
    methods are taken as a record of answers. *)

Module Api.

(** A Go [error]: [None] is [nil], [Some msg] has [Error() = msg]. *)
Abbreviation error := (option string).

(** The fields of [*whatsapp.Instance] that [ConnectInstance] reads under
    the read lock, after its wait.  [Status] is compared with a string; the
    other two are only encoded, and stand here as their JSON value. *)
Record Instance : Type := MkInstance {
  Status : string;
  QRCodeBase64 : JsVal;
  WANumber : JsVal;
}.

(** [whatsapp.Manager], by what its methods answer.  [GetStatus] answers a
    status and an [info] map, which the handlers only index. *)
Record Manager : Type := MkManager {
  Connect : string → Instance * error;
  Disconnect : string → error;
  Logout : string → error;
  GetStatus : string → string * (string → JsVal);
  GetQRCode : string → string * string;
  SendTextMessage : string → string → string → string * error;
  SendMediaMessage : string → string → string → string → string → string * error;
  SendPresence : string → string → string → error;
}.

Definition StatusBadRequest : Z := 400.
Definition StatusInternalServerError : Z := 500.
Definition StatusNotImplemented : Z := 501.

(** [ConnectInstance]; [instanceID] is [mux.Vars(r)["id"]]. *)
Definition ConnectInstance (m : Manager) (instanceID : string) : Go.HttpResponse :=
  let '(instance, err) := Connect m instanceID in
  match err with
  | Some e => Go.errorResponse StatusInternalServerError e
  | None =>
      let status := Status instance in
      Go.successResponse
        {[ "status" := JStr status;
           "qrCode" := QRCodeBase64 instance;
           "waNumber" := WANumber instance;
           "message" := JStr (if decide (status = "connected")
                              then "Already connected"
                              else "Scan the QR code with WhatsApp") ]}
  end.

(** [DisconnectInstance] *)
Definition DisconnectInstance (m : Manager) (instanceID : string) : Go.HttpResponse :=
  match Disconnect m instanceID with
  | Some e => Go.errorResponse StatusInternalServerError e
  | None => Go.successResponse {[ "message" := JStr "Instance disconnected successfully" ]}
  end.

(** [LogoutInstance] *)
Definition LogoutInstance (m : Manager) (instanceID : string) : Go.HttpResponse :=
  match Logout m instanceID with
  | Some e => Go.errorResponse StatusInternalServerError e
  | None => Go.successResponse {[ "message" := JStr "Logged out successfully" ]}
  end.

(** [GetInstanceStatus] *)
Definition GetInstanceStatus (m : Manager) (instanceID : string) : Go.HttpResponse :=
  let '(status, info) := GetStatus m instanceID in
  let '(_, qrBase64) := GetQRCode m instanceID in
  Go.successResponse
    {[ "id" := JStr instanceID;
       "status" := JStr status;
       "waNumber" := info "waNumber";
       "waName" := info "waName";
       "qrCode" := JStr qrBase64 ]}.

(** [GetQRCode] (the handler) *)
Definition GetQRCodeHandler (m : Manager) (instanceID : string) : Go.HttpResponse :=
  let '(_, qrBase64) := GetQRCode m instanceID in
  let '(status, _) := GetStatus m instanceID in
  if decide (qrBase64 = "") then
    if decide (status = "connected") then
      Go.successResponse
        {[ "status" := JStr "connected";
           "message" := JStr "Already connected, no QR code needed" ]}
    else
      Go.errorResponse StatusBadRequest "QR code not available. Try connecting first."
  else Go.successResponse {[ "qrCode" := JStr qrBase64 ]}.

(** The request structs, as [Decode] fills them: a field that the body
    does not have is left at its zero value. *)
Record SendTextRequest : Type := MkSendTextRequest {
  text_InstanceID : string;
  text_To : string;
  text_Text : string;
}.

Record SendMediaRequest : Type := MkSendMediaRequest {
  media_InstanceID : string;
  media_To : string;
  media_MediaURL : string;
  media_Caption : string;
  media_MediaType : string;
}.

Record SendPresenceRequest : Type := MkSendPresenceRequest {
  presence_InstanceID : string;
  presence_To : string;
  presence_Presence : string;
}.

Record SendLocationRequest : Type := MkSendLocationRequest {
  location_InstanceID : string;
  location_To : string;
  location_Latitude : float;
  location_Longitude : float;
  location_Description : string;
}.

(** [SendTextMessage]; [decoded] is what [Decode] gave, [None] when it
    returned an error. *)
Definition SendTextMessageHandler (m : Manager) (decoded : option SendTextRequest)
    : Go.HttpResponse :=
  match decoded with
  | None => Go.errorResponse StatusBadRequest "Invalid request body"
  | Some req =>
      if decide (text_InstanceID req = "" ∨ text_To req = "" ∨ text_Text req = "") then
        Go.errorResponse StatusBadRequest "instanceId, to, and text are required"
      else
        let to := Go.cleanPhoneNumber (text_To req) in
        let '(msgID, err) := SendTextMessage m (text_InstanceID req) to (text_Text req) in
        match err with
        | Some e => Go.errorResponse StatusInternalServerError e
        | None =>
            Go.successResponse
              {[ "messageId" := JStr msgID; "to" := JStr to; "status" := JStr "sent" ]}
        end
  end.

(** [SendMediaMessage] *)
Definition SendMediaMessageHandler (m : Manager) (decoded : option SendMediaRequest)
    : Go.HttpResponse :=
  match decoded with
  | None => Go.errorResponse StatusBadRequest "Invalid request body"
  | Some req =>
      if decide (media_InstanceID req = "" ∨ media_To req = "" ∨ media_MediaURL req = "") then
        Go.errorResponse StatusBadRequest "instanceId, to, and mediaUrl are required"
      else
        let to := Go.cleanPhoneNumber (media_To req) in
        let mediaType := media_MediaType req in
        let '(msgID, err) :=
          SendMediaMessage m (media_InstanceID req) to (media_MediaURL req)
            (media_Caption req) mediaType in
        match err with
        | Some e => Go.errorResponse StatusInternalServerError e
        | None =>
            Go.successResponse
              {[ "messageId" := JStr msgID; "to" := JStr to; "status" := JStr "sent" ]}
        end
  end.

(** [SendPresence] (the handler) *)
Definition SendPresenceHandler (m : Manager) (decoded : option SendPresenceRequest)
    : Go.HttpResponse :=
  match decoded with
  | None => Go.errorResponse StatusBadRequest "Invalid request body"
  | Some req =>
      if decide (presence_InstanceID req = "" ∨ presence_To req = ""
                 ∨ presence_Presence req = "") then
        Go.errorResponse StatusBadRequest "instanceId, to, and presence are required"
      else
        let to := Go.cleanPhoneNumber (presence_To req) in
        match SendPresence m (presence_InstanceID req) to (presence_Presence req) with
        | Some e => Go.errorResponse StatusInternalServerError e
        | None => Go.successResponse {[ "status" := JStr "success" ]}
        end
  end.

(** [SendLocationMessage] *)
Definition SendLocationMessage (decoded : option SendLocationRequest) : Go.HttpResponse :=
  match decoded with
  | None => Go.errorResponse StatusBadRequest "Invalid request body"
  | Some _ => Go.errorResponse StatusNotImplemented "Location sending not yet implemented"
  end.

(** [GetContacts], [CheckNumber], [GetGroups] *)
Definition GetContacts : Go.HttpResponse :=
  Go.errorResponse StatusNotImplemented "Not yet implemented".

Definition CheckNumber : Go.HttpResponse :=
  Go.errorResponse StatusNotImplemented "Not yet implemented".

Definition GetGroups : Go.HttpResponse :=
  Go.errorResponse StatusNotImplemented "Not yet implemented".

(** The [data] of the first message [WebSocketHandler] writes on a new
    stream. *)
Definition initialEvent_data (m : Manager) (instanceID : string) : JsObject :=
  let '(status, info) := GetStatus m instanceID in
  let '(_, qrBase64) := GetQRCode m instanceID in
  {[ "status" := JStr status;
     "waNumber" := info "waNumber";
     "waName" := info "waName";
     "qrCode" := JStr qrBase64 ]}.

(** [initialEvent] of [WebSocketHandler] *)
Definition initialEvent (m : Manager) (instanceID : string) : JsObject :=
  {[ "type" := JStr "status";
     "instanceId" := JStr instanceID;
     "data" := JObj (initialEvent_data m instanceID) ]}.

End Api.

(** A streamed message read at the type [WhatsmeowEvent]: [None] when a
    field does not have its declared type.  The handler never reads the
    timestamp; a message without one is given [nan]. *)
Definition event_of_message (o : JsObject) : option WhatsmeowEvent :=
  match o !! "type", o !! "instanceId", o !! "data" with
  | Some (JStr type), Some (JStr instanceId), Some (JObj data) =>
      Some (MkEvent type instanceId data
              (match o !! "timestamp" with Some (JNum x) => x | _ => nan end))
  | _, _, _ => None
  end.

(** Whether a string has a decimal digit. *)
Definition has_digit (s : string) : Prop := digits_of s ≠ "".

(** What a command leaves alone when only the request log changes. *)
Definition same_but_requests (b b' : Bridge) : Prop :=
  wsConnections b' = wsConnections b
  ∧ instances b' = instances b
  ∧ reconnectTimers b' = reconnectTimers b
  ∧ sockets b' = sockets b
  ∧ timeouts b' = timeouts b
  ∧ emitted b' = emitted b.

(** The commands that only send. *)
Definition is_send (c : Command) : bool :=
  match c with
  | SendText _ _ _ | SendMedia _ _ _ _ | SendMediaBase64 _ _ _ _ _
  | SendLocation _ _ _ _ _ | SendPresence _ _ _ => true
  | _ => false
  end.

(** The record [connect] stores and returns, built from the [data] of the
    response. *)
Definition connect_record (instanceId : string) (d : JsObject) : WAInstance :=
  MkInstance instanceId (prop d "status") JUndef (prop d "qrCode")
             (prop d "waNumber") JUndef.

(** A field of the body of a request. *)
Definition req_field (r : Request) (k : string) : option JsVal :=
  req_body r ≫= (λ o, o !! k).

(** Every character of the string is a decimal digit. *)
Definition all_digits (s : string) : Prop :=
  Forall (λ c, Go.is_digit c = true) (list_ascii_of_string s).

(** One run of a handler of the Go file, with what it reads. *)
Inductive HandlerCall : Type :=
| RunConnectInstance (instanceID : string)
| RunDisconnectInstance (instanceID : string)
| RunLogoutInstance (instanceID : string)
| RunGetInstanceStatus (instanceID : string)
| RunGetQRCode (instanceID : string)
| RunSendTextMessage (decoded : option Api.SendTextRequest)
| RunSendMediaMessage (decoded : option Api.SendMediaRequest)
| RunSendPresence (decoded : option Api.SendPresenceRequest)
| RunSendLocationMessage (decoded : option Api.SendLocationRequest)
| RunGetContacts
| RunCheckNumber
| RunGetGroups.

(** The response the handler writes. *)
Definition respond (m : Api.Manager) (h : HandlerCall) : Go.HttpResponse :=
  match h with
  | RunConnectInstance instanceID => Api.ConnectInstance m instanceID
  | RunDisconnectInstance instanceID => Api.DisconnectInstance m instanceID
  | RunLogoutInstance instanceID => Api.LogoutInstance m instanceID
  | RunGetInstanceStatus instanceID => Api.GetInstanceStatus m instanceID
  | RunGetQRCode instanceID => Api.GetQRCodeHandler m instanceID
  | RunSendTextMessage decoded => Api.SendTextMessageHandler m decoded
  | RunSendMediaMessage decoded => Api.SendMediaMessageHandler m decoded
  | RunSendPresence decoded => Api.SendPresenceHandler m decoded
  | RunSendLocationMessage decoded => Api.SendLocationMessage decoded
  | RunGetContacts => Api.GetContacts
  | RunCheckNumber => Api.CheckNumber
  | RunGetGroups => Api.GetGroups
  end.

(** A session manager that accepts everything: every instance is waiting
    for its pairing code, every message gets the id ["3EB0"]. *)
Definition accepting_manager : Api.Manager :=
  Api.MkManager
    (λ _, (Api.MkInstance "qr" (JStr "data:image/png;base64,AAAA") (JStr ""), None))
    (λ _, None)
    (λ _, None)
    (λ _, ("qr", λ _, JStr ""))
    (λ _, ("2@abc", "data:image/png;base64,AAAA"))
    (λ _ _ _, ("3EB0", None))
    (λ _ _ _ _ _, ("3EB0", None))
    (λ _ _ _, None).

(** A string field of a request body, as [Decode] reads it into a struct:
    the zero value when the body does not have it. *)
Definition string_field (r : Request) (k : string) : string :=
  match req_field r k with Some (JStr v) => v | _ => "" end.

(** A service that hands the body of every request to [SendTextMessage]. *)
Definition text_service (m : Api.Manager) : Request → FetchOutcome :=
  λ r, Responded
         (Api.SendTextMessageHandler m
            (Some (Api.MkSendTextRequest (string_field r "instanceId")
                     (string_field r "to") (string_field r "text")))).

(** ** Messages outside the declared shape

    [onmessage] casts the parsed message to [WhatsmeowEvent] without a
    check.  A message with a string [type] and a string [instanceId] whose
    [data] is absent or [null] goes through [handleEvent] as follows. *)

(** What the branches of [handleEvent] have written to the record when
    [data] is [undefined] or [null]: the [qr] branch has set the status when
    reading [data.qr] throws; the [ready] branch has set the status and
    cleared the pairing code when reading [data.number] throws; the
    [disconnected] branch does not read [data]. *)
Definition update_instance_dataless (type : string) (i : WAInstance) : WAInstance :=
  if decide (type = "qr") then
    MkInstance (id i) (JStr "qr") (qrCode i) (qrCodeBase64 i) (waNumber i) (waName i)
  else if decide (type = "ready") then
    MkInstance (id i) (JStr "connected") JUndef JUndef (waNumber i) (waName i)
  else if decide (type = "disconnected" ∨ type = "logged_out") then
    mark_disconnected i
  else i.

(** [handleEvent] under the [try] of [onmessage], for an event without
    [data].  When the instance is registered and the type is [qr] or
    [ready], the branch throws and the [catch] of [onmessage] logs: nothing
    is emitted.  Otherwise [data] is only spread, which adds nothing to
    [{ instanceId }]. *)
Definition handleEvent_dataless (type instanceId : string) (b : Bridge) : Bridge :=
  let b1 := set_instances (alter (update_instance_dataless type) instanceId) b in
  if bool_decide (is_Some (instances b !! instanceId) ∧ (type = "qr" ∨ type = "ready"))
  then b1
  else set_emitted
         (λ l, l ++ [MkEmission (mappedEvent type) {[ "instanceId" := JStr instanceId ]}])
         b1.

(** What a socket delivers: text that does not parse, an event of the
    declared shape, or an event without data.  (A parsed message of yet
    another shape, with a [type] or an [instanceId] that is not a string or
    a [data] that is neither an object nor missing, is not covered.) *)
Inductive Incoming : Type :=
| Unparseable
| Typed (event : WhatsmeowEvent)
| Dataless (type instanceId : string).

(** [ws.onmessage] on any of these. *)
Definition on_incoming (ws : nat) (msg : Incoming) (b : Bridge) : Bridge :=
  match msg with
  | Unparseable => ws_onmessage ws None b
  | Typed event => ws_onmessage ws (Some event) b
  | Dataless type instanceId => handleEvent_dataless type instanceId b
  end.

(** A streamed message whose data names an instance itself. *)
Definition sample_tagged_message : WhatsmeowEvent :=
  MkEvent "message" "acct1"
    {[ "body" := JStr "hi"; "instanceId" := JStr "acct1" ]} 1700000000000.

(** Two instances, each with a registered socket and a registered timer. *)
Definition two_instances_bridge : Bridge :=
  MkBridge {[ "acct1" := 0; "acct2" := 1 ]}
           {[ "acct1" := MkInstance "acct1" (JStr "connected") JUndef JUndef
                           (JStr "15551234567") (JStr "Alice");
              "acct2" := MkInstance "acct2" (JStr "qr") (JStr "2@abc")
                           (JStr "data:image/png;base64,AAAA") JUndef JUndef ]}
           {[ "acct1" := 0; "acct2" := 1 ]}
           [MkSocket "acct1" Live; MkSocket "acct2" Live]
           [MkTimeout "acct1" reconnect_delay Pending;
            MkTimeout "acct2" reconnect_delay Pending]
           [] [].

(** * Properties *)

(** ** Destination normalization *)

Lemma class_d_decimal (c : ascii) : class_d c = bool_decide (c ∈ decimal_digits).
Proof. by destruct c as [[] [] [] [] [] [] [] []]; vm_compute. Qed.

Lemma go_is_digit_class_d (c : ascii) : Go.is_digit c = class_d c.
Proof. reflexivity. Qed.

Lemma digits_of_cons (c : ascii) (s : string) :
  digits_of (String c s) =
  if class_d c then String c (digits_of s) else digits_of s.
Proof.
  unfold digits_of. cbn [list_ascii_of_string]. rewrite filter_cons.
  rewrite class_d_decimal.
  destruct (decide (c ∈ decimal_digits)) as [Hc|Hc].
  - by rewrite bool_decide_eq_true_2.
  - by rewrite bool_decide_eq_false_2.
Qed.

(** The regular-expression replacement keeps exactly the digits. *)
Lemma replace_non_digits (s : string) : replace_global class_D "" s = digits_of s.
Proof.
  induction s as [|c s IH]; [done|].
  rewrite digits_of_cons. cbn [replace_global]. rewrite IH.
  unfold class_D. by destruct (class_d c).
Qed.

Lemma string_app_cons (x : ascii) (a b : string) :
  String x a +:+ b = String x (a +:+ b).
Proof. reflexivity. Qed.

Lemma string_app_nil_r (a : string) : a +:+ "" = a.
Proof. induction a as [|x a IH]; [done|]. by rewrite string_app_cons, IH. Qed.

Lemma string_app_assoc (a b c : string) : (a +:+ b) +:+ c = a +:+ (b +:+ c).
Proof. induction a as [|x a IH]; [done|]. by rewrite !string_app_cons, IH. Qed.

Lemma clean_loop (l : list ascii) (acc : string) :
  fold_left (λ result c, if Go.is_digit c then result +:+ String c "" else result) l acc
  = acc +:+ digits_of (string_of_list_ascii l).
Proof.
  revert acc. induction l as [|c l IH]; intros acc; cbn [fold_left string_of_list_ascii].
  - by rewrite string_app_nil_r.
  - rewrite IH, digits_of_cons, go_is_digit_class_d.
    destruct (class_d c); [|done]. by rewrite string_app_assoc.
Qed.

(** The Go service's loop keeps exactly the digits as well. *)
Lemma cleanPhoneNumber_digits (number : string) :
  Go.cleanPhoneNumber number = digits_of number.
Proof.
  unfold Go.cleanPhoneNumber. rewrite clean_loop.
  by rewrite string_of_list_ascii_of_string.
Qed.

Lemma request_issues fetch req b :
  requests (request fetch req b).2 = requests b ++ [req].
Proof.
  unfold request. destruct (fetch req) as [e|st e|r]; [done..|].
  by destruct (Go.success (Go.http_body r)).
Qed.

Lemma bind_request_issues {A} fetch req (k : option JsObject → Cmd A) b :
  (∀ d b', requests (k d b').2 = requests b') →
  issues (bind (request fetch req) k) b req.
Proof.
  intros Hk. unfold issues, bind.
  pose proof (request_issues fetch req b) as Hreq.
  destruct (request fetch req b) as [[d|e] b']; cbn in *; [|done].
  by rewrite Hk.
Qed.

Lemma field_keeps_requests {A} d k (f : JsVal → A) b :
  requests (bind (field d k) (λ v, ret (f v)) b).2 = requests b.
Proof. by destruct d. Qed.

(** C6. Whatever the destination string, [sendText], [sendMedia],
    [sendLocation] and [sendPresence] each hand exactly one request to
    [fetch], and the destination in it is the subsequence of the decimal
    digits of the input, in their order; the input is not checked in any
    other way (the request is issued for every input).  The destination
    ["+1 (555) 123-4567"] becomes ["15551234567"]. *)
Theorem send_normalizes_destination
    (fetch : Request → FetchOutcome) (now : float)
    (instanceId to text mediaUrl presence : string)
    (options : option MediaOptions) (latitude longitude : float)
    (description : option string) (b : Bridge) :
  (∃ r, issues (sendText fetch now instanceId to text) b r
        ∧ req_to r = Some (JStr (digits_of to)))
  ∧ (∃ r, issues (sendMedia fetch instanceId to mediaUrl options) b r
          ∧ req_to r = Some (JStr (digits_of to)))
  ∧ (∃ r, issues (sendLocation fetch instanceId to latitude longitude description) b r
          ∧ req_to r = Some (JStr (digits_of to)))
  ∧ (∃ r, issues (sendPresence fetch instanceId to presence) b r
          ∧ req_to r = Some (JStr (digits_of to)))
  ∧ replace_global class_D "" "+1 (555) 123-4567" = "15551234567".
Proof.
  repeat split.
  - eexists; split.
    + apply bind_request_issues. intros d b'. apply field_keeps_requests.
    + by rewrite replace_non_digits.
  - eexists; split.
    + apply bind_request_issues. intros d b'. apply field_keeps_requests.
    + by rewrite replace_non_digits.
  - eexists; split.
    + apply bind_request_issues. intros d b'. apply field_keeps_requests.
    + by rewrite replace_non_digits.
  - eexists; split.
    + by apply bind_request_issues.
    + by rewrite replace_non_digits.
Qed.

(** ** Lookups of unknown ids *)

(** C10. For an instance id that is not in the registry, [getStatus] returns
    ['not_found'], [getInstance] and [getClient] return [undefined], and
    [getQRCode] returns an object whose two fields are [undefined].  The
    lookups are total: they return a value and never throw. *)
Theorem unknown_id_lookups (instanceId : string) (b : Bridge) :
  instances b !! instanceId = None →
  getStatus instanceId b = JStr "not_found"
  ∧ getInstance instanceId b = None
  ∧ getClient instanceId b = None
  ∧ getQRCode instanceId b = MkQRCode JUndef JUndef.
Proof.
  intros Hnone. unfold getStatus, getInstance, getClient, getQRCode.
  by rewrite Hnone.
Qed.

Lemma unknown_id_lookups_witness :
  getStatus "ghost" empty_bridge = JStr "not_found"
  ∧ getInstance "ghost" empty_bridge = None
  ∧ getClient "ghost" empty_bridge = None
  ∧ getQRCode "ghost" empty_bridge = MkQRCode JUndef JUndef.
Proof. apply (unknown_id_lookups "ghost" empty_bridge). reflexivity. Defined.

(** A registered instance answers with its own status. *)
Lemma getStatus_registered (instanceId s : string) (i : WAInstance) (b : Bridge) :
  instances b !! instanceId = Some i → status i = JStr s →
  getStatus instanceId b = JStr s.
Proof. intros Hi Hs. unfold getStatus. by rewrite Hi; cbn; rewrite Hs. Qed.

(** ** Unsupported capabilities *)

(** C1, as the code has it: on the unsupported capabilities the methods split
    in two groups.  Twenty-eight of them (polls, editing, reactions, deletion,
    media download, single contact and chat lookups, blocking, chat
    management, group management) throw [Error('Not implemented')].  The
    others complete without an error: [sendContact] returns [{}]; the list
    reads return [[]]; the label and profile updates return [undefined];
    [isRegisteredUser] returns [true]; [getProfilePicUrl] returns [null].
    Every method of the block is in one of the groups. *)
Theorem stubs_throw_or_return_default :
  Forall (λ m, call_stub m = Throw not_implemented) throwing_stubs
  ∧ call_stub sendContact = Return (JObj ∅)
  ∧ Forall (λ m, call_stub m = Return (JArr [])) empty_list_stubs
  ∧ Forall (λ m, call_stub m = Return JUndef) no_op_stubs
  ∧ call_stub isRegisteredUser = Return (JBool true)
  ∧ call_stub getProfilePicUrl = Return JNull
  ∧ (∀ m : Stub,
       m ∈ throwing_stubs ++ [sendContact] ++ empty_list_stubs ++ no_op_stubs
           ++ [isRegisteredUser; getProfilePicUrl])
  ∧ length all_stubs = 44 ∧ length throwing_stubs = 28.
Proof.
  repeat split; try (repeat constructor; done).
  - intros m. destruct m; set_solver.
Qed.

(** C1, counterexample: [getContacts] completes with the empty list,
    [sendContact] with the empty object, [getProfilePicUrl] with [null],
    [setProfileName] with [undefined], and [isRegisteredUser] with a made-up
    [true]; none of them fails. *)
Lemma silent_stubs_counterexample :
  Forall (λ m, ∃ v, call_stub m = Return v ∧ empty_result v = true)
    [getContacts; sendContact; getProfilePicUrl; setProfileName]
  ∧ call_stub isRegisteredUser = Return (JBool true).
Proof.
  split; [|done].
  repeat constructor; eexists; (split; [reflexivity | by vm_compute]).
Qed.

(** ** The event normalizer *)

Lemma handleEvent_emitted (ev : WhatsmeowEvent) (b : Bridge) :
  emitted (handleEvent ev b) =
  emitted b ++ [MkEmission (mappedEvent (ev_type ev))
                           (payload_of (ev_instanceId ev) (ev_data ev))].
Proof. reflexivity. Qed.

Lemma handleEvent_instances (ev : WhatsmeowEvent) (b : Bridge) :
  instances (handleEvent ev b) =
  alter (update_instance (ev_type ev) (ev_data ev)) (ev_instanceId ev) (instances b).
Proof. reflexivity. Qed.

(** The handler touches neither the connections nor the timers. *)
Lemma handleEvent_connector (ev : WhatsmeowEvent) (b : Bridge) :
  wsConnections (handleEvent ev b) = wsConnections b
  ∧ reconnectTimers (handleEvent ev b) = reconnectTimers b
  ∧ sockets (handleEvent ev b) = sockets b
  ∧ timeouts (handleEvent ev b) = timeouts b.
Proof. done. Qed.

(** C2, as the code has it: a raw [disconnected] or [logged_out] event sets
    the status of the instance's registry record (when there is one) to
    [disconnected], leaving its other fields as they were, and emits exactly
    one event: [disconnected] for the raw type [disconnected], and
    [auth_failure] alone for the raw type [logged_out]. *)
Theorem disconnect_events_emit_once (ev : WhatsmeowEvent) (b : Bridge) :
  ev_type ev = "disconnected" ∨ ev_type ev = "logged_out" →
  instances (handleEvent ev b) !! ev_instanceId ev
    = mark_disconnected <$> instances b !! ev_instanceId ev
  ∧ emitted (handleEvent ev b)
    = emitted b ++
      [MkEmission
         (EvName (if decide (ev_type ev = "logged_out")
                  then "auth_failure" else "disconnected"))
         (payload_of (ev_instanceId ev) (ev_data ev))].
Proof.
  intros Hty. rewrite handleEvent_instances, handleEvent_emitted, lookup_alter_eq.
  split.
  - unfold update_instance.
    destruct Hty as [-> | ->]; by destruct (instances b !! ev_instanceId ev).
  - by destruct Hty as [-> | ->].
Qed.

Lemma disconnect_events_emit_once_witness :
  instances (handleEvent (MkEvent "logged_out" "acct1" ∅ 0) pairing_bridge) !! "acct1"
    = mark_disconnected <$> instances pairing_bridge !! "acct1"
  ∧ emitted (handleEvent (MkEvent "logged_out" "acct1" ∅ 0) pairing_bridge)
    = emitted pairing_bridge ++
      [MkEmission (EvName "auth_failure") (payload_of "acct1" ∅)].
Proof.
  apply (disconnect_events_emit_once (MkEvent "logged_out" "acct1" ∅ 0) pairing_bridge).
  right. reflexivity.
Defined.

(** C2, counterexample: for a [logged_out] event the handler emits one event,
    [auth_failure]; no [disconnected] event is emitted. *)
Lemma logged_out_counterexample :
  emitted (handleEvent (MkEvent "logged_out" "acct1" ∅ 0) pairing_bridge)
    = [MkEmission (EvName "auth_failure") {[ "instanceId" := JStr "acct1" ]}]
  ∧ Forall (λ e, em_key e ≠ EvName "disconnected")
      (emitted (handleEvent (MkEvent "logged_out" "acct1" ∅ 0) pairing_bridge)).
Proof.
  split.
  - by vm_compute.
  - rewrite handleEvent_emitted. by repeat constructor.
Qed.

(** ** Pairing codes *)

(** The [ready] branch clears the pairing code as it sets [connected]. *)
Lemma ready_clears_pairing_code (ev : WhatsmeowEvent) (i : WAInstance) (b : Bridge) :
  ev_type ev = "ready" → instances b !! ev_instanceId ev = Some i →
  ∃ i', instances (handleEvent ev b) !! ev_instanceId ev = Some i'
        ∧ status i' = JStr "connected"
        ∧ qrCode i' = JUndef ∧ qrCodeBase64 i' = JUndef.
Proof.
  intros Hty Hi. rewrite handleEvent_instances, lookup_alter_eq, Hi, Hty.
  by eexists.
Qed.

(** C3, the code at the failing input.  An instance is connected, the remote
    service streams a pairing code and then a [disconnected] event: the
    registry record ends with status [disconnected] and still carries the
    pairing code, which [getQRCode] hands out.  The same happens when the
    [disconnect] command is called instead of the event arriving. *)
Theorem disconnected_keeps_pairing_code :
  (∃ b i,
     run_trace always_constructs
       (pairing_trace (OnMessage 0 (Some (MkEvent "disconnected" "acct1" ∅ 0))))
       empty_bridge = Some b
     ∧ instances b !! "acct1" = Some i
     ∧ status i = JStr "disconnected"
     ∧ carries_pairing_code i
     ∧ getQRCode "acct1" b
       = MkQRCode (JStr "2@abc") (JStr "data:image/png;base64,AAAA"))
  ∧ (∃ b i,
       run_trace always_constructs
         (pairing_trace (Call (answers ∅) 0 (Disconnect "acct1")))
         empty_bridge = Some b
       ∧ instances b !! "acct1" = Some i
       ∧ status i = JStr "disconnected"
       ∧ carries_pairing_code i).
Proof.
  split.
  - eexists _, _. split; [by vm_compute|]. split; [by vm_compute|].
    split; [done|]. split; [by left | by vm_compute].
  - eexists _, _. split; [by vm_compute|]. split; [by vm_compute|].
    split; [done | by left].
Qed.

(** ** What an emitted event carries *)



(** An event whose data names an instance itself is emitted once like any
    other. *)
Example tagged_message_emitted_once :
  emitted (on_incoming 0 (Typed sample_tagged_message) pairing_bridge)
  = [MkEmission (EvName "message")
       {[ "body" := JStr "hi"; "instanceId" := JStr "acct1" ]}].
Proof. by vm_compute. Qed.

(** A [qr] or [ready] event without data, for a registered instance: the
    status is written, then reading the data throws, and nothing is
    emitted. *)
Lemma dataless_pairing_event_not_emitted (ws : nat) (type instanceId : string)
    (i : WAInstance) (b : Bridge) :
  instances b !! instanceId = Some i →
  type = "qr" ∨ type = "ready" →
  emitted (on_incoming ws (Dataless type instanceId) b) = emitted b
  ∧ (status <$> instances (on_incoming ws (Dataless type instanceId) b) !! instanceId)
    = Some (JStr (if decide (type = "qr") then "qr" else "connected")).
Proof.
  intros Hi Hty. cbn [on_incoming]. unfold handleEvent_dataless.
  rewrite bool_decide_eq_true_2 by (split; [by eexists | done]).
  cbn. rewrite lookup_alter_eq, Hi. by destruct Hty as [-> | ->].
Qed.

(** A property [instanceId] of the raw [data] takes the place of the event's. *)
Lemma payload_instanceId_from_data (instanceId : string) (data : JsObject) (v : JsVal) :
  data !! "instanceId" = Some v → payload_of instanceId data !! "instanceId" = Some v.
Proof. intros Hv. unfold payload_of. by rewrite (lookup_union_Some_l _ _ _ v). Qed.


(** ** Failures of the remote service *)

(** C7, as the code has it: whatever the command, a response envelope with
    [success = false] makes the call throw an [Error] whose message is the
    envelope's [error] string when that string is not empty, and
    ['Request failed'] when it is empty or absent; a failure of the transport
    ([fetch] rejects, or the body does not parse) makes the call throw the
    transport's own error, unchanged.  The envelope
    [{success:false, error:"rate limited"}] gives the message
    ["rate limited"]. *)
Theorem upstream_failure_surfaces
    (ws_constructs : string → bool) (now : float) (c : Command)
    (http : Z) (s : string) (d : option JsObject) (e : JsError) (b : Bridge) :
  thrown (call ws_constructs
            (λ _, Responded (Go.jsonResponse http (Go.MkEnvelope false (Some s) d)))
            now c b).1
    = Some (Error (if decide (s = "") then "Request failed" else s))
  ∧ thrown (call ws_constructs
              (λ _, Responded (Go.jsonResponse http (Go.MkEnvelope false None d)))
              now c b).1
    = Some (Error "Request failed")
  ∧ thrown (call ws_constructs (λ _, FetchRejected e) now c b).1 = Some e
  ∧ thrown (call ws_constructs (λ _, JsonRejected http e) now c b).1 = Some e
  ∧ thrown (call ws_constructs (refuses http "rate limited") now c b).1
    = Some (Error "rate limited").
Proof. destruct c; repeat split. Qed.

(** C7, counterexample: the envelope [{success:false, error:""}] is
    surfaced with the message ['Request failed'], which is not the envelope's
    error string. *)
Lemma empty_error_counterexample :
  ∃ e, (request (refuses 500 "") (textRequest "acct1" "15551234567" "hi") empty_bridge).1
       = Throw e
       ∧ err_message e = "Request failed"
       ∧ Go.error (Go.http_body (Go.errorResponse 500 "")) = Some "".
Proof. by eexists. Qed.

(** ** The stream connector *)

Lemma disconnectWebSocket_maps (instanceId : string) (b : Bridge) :
  wsConnections (disconnectWebSocket instanceId b) = delete instanceId (wsConnections b)
  ∧ reconnectTimers (disconnectWebSocket instanceId b)
    = delete instanceId (reconnectTimers b)
  ∧ instances (disconnectWebSocket instanceId b) = instances b
  ∧ emitted (disconnectWebSocket instanceId b) = emitted b
  ∧ requests (disconnectWebSocket instanceId b) = requests b.
Proof.
  unfold disconnectWebSocket.
  destruct (wsConnections b !! instanceId) as [ws|] eqn:Hws; cbn;
    destruct (reconnectTimers b !! instanceId) as [t|] eqn:Ht; cbn;
    rewrite ?(delete_id _ _ Hws), ?(delete_id _ _ Ht); done.
Qed.

Lemma disconnectWebSocket_sockets (instanceId : string) (b : Bridge) :
  sockets (disconnectWebSocket instanceId b) =
  match wsConnections b !! instanceId with
  | Some ws => alter closing ws (sockets b)
  | None => sockets b
  end.
Proof.
  unfold disconnectWebSocket.
  destruct (wsConnections b !! instanceId) as [ws|]; cbn;
    by destruct (reconnectTimers b !! instanceId).
Qed.

Lemma disconnectWebSocket_timeouts (instanceId : string) (b : Bridge) :
  timeouts (disconnectWebSocket instanceId b) =
  match reconnectTimers b !! instanceId with
  | Some t => alter cleared t (timeouts b)
  | None => timeouts b
  end.
Proof.
  unfold disconnectWebSocket.
  destruct (wsConnections b !! instanceId) as [ws|]; cbn;
    by destruct (reconnectTimers b !! instanceId).
Qed.

Lemma disconnectWebSocket_sockets_length (instanceId : string) (b : Bridge) :
  length (sockets (disconnectWebSocket instanceId b)) = length (sockets b).
Proof.
  rewrite disconnectWebSocket_sockets.
  destruct (wsConnections b !! instanceId); [apply length_alter | done].
Qed.


(** After the teardown the instance has neither. *)
Lemma disconnectWebSocket_clears (instanceId : string) (b : Bridge) :
  wsConnections (disconnectWebSocket instanceId b) !! instanceId = None
  ∧ reconnectTimers (disconnectWebSocket instanceId b) !! instanceId = None.
Proof.
  destruct (disconnectWebSocket_maps instanceId b) as (-> & -> & _).
  by rewrite !lookup_delete_eq.
Qed.


Lemma connectWebSocket_sockets (ws_constructs : string → bool)
    (instanceId : string) (b : Bridge) :
  sockets (connectWebSocket ws_constructs instanceId b) =
  sockets (disconnectWebSocket instanceId b)
  ++ (if ws_constructs instanceId then [MkSocket instanceId Live] else []).
Proof.
  unfold connectWebSocket. destruct (ws_constructs instanceId); cbn; [done|].
  by rewrite app_nil_r.
Qed.

Lemma connectWebSocket_registers (ws_constructs : string → bool)
    (instanceId : string) (b : Bridge) :
  wsConnections (connectWebSocket ws_constructs instanceId b) !! instanceId =
  (if ws_constructs instanceId then Some (length (sockets b)) else None)
  ∧ reconnectTimers (connectWebSocket ws_constructs instanceId b) !! instanceId = None.
Proof.
  unfold connectWebSocket.
  destruct (disconnectWebSocket_clears instanceId b) as [Hws Ht].
  destruct (ws_constructs instanceId); cbn.
  - by rewrite lookup_insert_eq, disconnectWebSocket_sockets_length.
  - done.
Qed.

Lemma connectWebSocket_keeps (ws_constructs : string → bool)
    (instanceId : string) (b : Bridge) :
  instances (connectWebSocket ws_constructs instanceId b) = instances b
  ∧ emitted (connectWebSocket ws_constructs instanceId b) = emitted b.
Proof.
  destruct (disconnectWebSocket_maps instanceId b) as (_ & _ & Hi & He & _).
  unfold connectWebSocket. by destruct (ws_constructs instanceId).
Qed.

(** ** Scheduled reconnects *)

(** C8. When a reconnect timer fires, a new connection is opened only if the
    registry contains the instance id at that moment (and the timer was still
    pending, and the socket could be constructed).  For an id that is no
    longer in the registry the fired timer opens nothing and registers
    nothing. *)
Theorem reconnect_only_if_registered
    (ws_constructs : string → bool) (t : nat) (tm : Timeout) (b : Bridge) :
  timeouts b !! t = Some tm →
  (opens_connection b (timer_fire ws_constructs t b)
   ↔ tm_state tm = Pending
     ∧ is_Some (instances b !! tm_instanceId tm)
     ∧ ws_constructs (tm_instanceId tm) = true)
  ∧ (instances b !! tm_instanceId tm = None →
     sockets (timer_fire ws_constructs t b) = sockets b
     ∧ wsConnections (timer_fire ws_constructs t b) = wsConnections b).
Proof.
  intros Ht. unfold opens_connection, timer_fire, reconnect_callback.
  rewrite Ht. split.
  - destruct (tm_state tm) eqn:Hst; cbn [instances set_timeouts];
      [|split; [lia | by intros [? _]]..].
    case_bool_decide as Hreg.
    + rewrite connectWebSocket_sockets, length_app,
        disconnectWebSocket_sockets_length.
      cbn [sockets set_timeouts].
      destruct (ws_constructs (tm_instanceId tm)); cbn [length];
        split; try done; try lia.
    + cbn [sockets set_timeouts]. split; [lia|]. by intros (_ & ? & _).
  - intros Hnone. destruct (tm_state tm); [|done..].
    cbn [instances set_timeouts]. rewrite Hnone.
    rewrite bool_decide_eq_false_2; [done|]. by intros [? ?].
Qed.

Lemma reconnect_only_if_registered_witness :
  (opens_connection
     (MkBridge ∅ ∅ {[ "acct1" := 0 ]} [MkSocket "acct1" Closed]
               [MkTimeout "acct1" reconnect_delay Pending] [] [])
     (timer_fire always_constructs 0
        (MkBridge ∅ ∅ {[ "acct1" := 0 ]} [MkSocket "acct1" Closed]
                  [MkTimeout "acct1" reconnect_delay Pending] [] []))
   ↔ tm_state (MkTimeout "acct1" reconnect_delay Pending) = Pending
     ∧ is_Some ((∅ : gmap string WAInstance) !! "acct1")
     ∧ always_constructs "acct1" = true)
  ∧ ((∅ : gmap string WAInstance) !! "acct1" = None →
     sockets (timer_fire always_constructs 0
                (MkBridge ∅ ∅ {[ "acct1" := 0 ]} [MkSocket "acct1" Closed]
                          [MkTimeout "acct1" reconnect_delay Pending] [] []))
     = [MkSocket "acct1" Closed]
     ∧ wsConnections (timer_fire always_constructs 0
                        (MkBridge ∅ ∅ {[ "acct1" := 0 ]} [MkSocket "acct1" Closed]
                                  [MkTimeout "acct1" reconnect_delay Pending] [] []))
       = ∅).
Proof.
  apply (reconnect_only_if_registered always_constructs 0
           (MkTimeout "acct1" reconnect_delay Pending)
           (MkBridge ∅ ∅ {[ "acct1" := 0 ]} [MkSocket "acct1" Closed]
                     [MkTimeout "acct1" reconnect_delay Pending] [] [])).
  reflexivity.
Defined.

(** ** Teardown and logout, twice *)

Lemma logout_accepted (fetch : Request → FetchOutcome) (instanceId : string) (b : Bridge) :
  accepted fetch (instanceRequest instanceId "logout") = true →
  logout fetch instanceId b =
  (Return tt,
   set_instances (delete instanceId)
     (disconnectWebSocket instanceId
        (set_requests (λ l, l ++ [instanceRequest instanceId "logout"]) b))).
Proof.
  unfold accepted, logout, bind, request. intros Hacc.
  destruct (fetch (instanceRequest instanceId "logout")) as [e|st e|r]; [done..|].
  by rewrite Hacc.
Qed.

Lemma logout_refused (fetch : Request → FetchOutcome) (instanceId : string) (b : Bridge) :
  accepted fetch (instanceRequest instanceId "logout") = false →
  (logout fetch instanceId b).2
  = set_requests (λ l, l ++ [instanceRequest instanceId "logout"]) b
  ∧ (logout fetch instanceId b).1 ≠ Return tt.
Proof.
  unfold accepted, logout, bind, request. intros Hacc.
  destruct (fetch (instanceRequest instanceId "logout")) as [e|st e|r]; [done..|].
  by rewrite Hacc.
Qed.





(** ** Superseded connections *)

(** C4, as the code has it.  A socket carries no generation counter.  When
    [connectWebSocket] runs for an instance that has a registered socket, it
    calls [close()] on that socket, drops the instance's retry timer and
    registers the new socket (if one could be constructed).  A message that
    the old socket delivers afterwards is not discarded: it is handled
    exactly as if the new socket had delivered it, updating the registry and
    reaching the subscribers. *)
Theorem superseded_socket_still_handled
    (ws_constructs : string → bool) (instanceId : string) (old current : nat)
    (w : Socket) (ev : WhatsmeowEvent) (b : Bridge) :
  wsConnections b !! instanceId = Some old →
  sockets b !! old = Some w →
  sockets (connectWebSocket ws_constructs instanceId b) !! old = Some (closing w)
  ∧ wsConnections (connectWebSocket ws_constructs instanceId b) !! instanceId
    = (if ws_constructs instanceId then Some (length (sockets b)) else None)
  ∧ old ≠ length (sockets b)
  ∧ reconnectTimers (connectWebSocket ws_constructs instanceId b) !! instanceId = None
  ∧ ws_onmessage old (Some ev) (connectWebSocket ws_constructs instanceId b)
    = ws_onmessage current (Some ev) (connectWebSocket ws_constructs instanceId b)
  ∧ instances (ws_onmessage old (Some ev) (connectWebSocket ws_constructs instanceId b))
    = alter (update_instance (ev_type ev) (ev_data ev)) (ev_instanceId ev) (instances b)
  ∧ emitted (ws_onmessage old (Some ev) (connectWebSocket ws_constructs instanceId b))
    = emitted b ++ [MkEmission (mappedEvent (ev_type ev))
                               (payload_of (ev_instanceId ev) (ev_data ev))].
Proof.
  intros Hws Hw.
  pose proof (lookup_lt_Some _ _ _ Hw) as Hlt.
  assert (sockets (connectWebSocket ws_constructs instanceId b) !! old
          = Some (closing w)) as Hold.
  { rewrite connectWebSocket_sockets, disconnectWebSocket_sockets, Hws.
    rewrite lookup_app_l by (by rewrite length_alter).
    by rewrite list_lookup_alter_eq, Hw. }
  destruct (connectWebSocket_registers ws_constructs instanceId b) as [Hreg Htm].
  destruct (connectWebSocket_keeps ws_constructs instanceId b) as [Hins Hem].
  split; [done|]. split; [done|]. split; [lia|]. split; [done|].
  split; [done|]. cbn [ws_onmessage].
  by rewrite handleEvent_instances, handleEvent_emitted, Hins, Hem.
Qed.

Lemma superseded_socket_still_handled_witness :
  sockets (connectWebSocket always_constructs "acct2" two_instances_bridge) !! 1
    = Some (closing (MkSocket "acct2" Live))
  ∧ wsConnections (connectWebSocket always_constructs "acct2" two_instances_bridge)
      !! "acct2"
    = (if always_constructs "acct2"
       then Some (length (sockets two_instances_bridge)) else None)
  ∧ 1 ≠ length (sockets two_instances_bridge)
  ∧ reconnectTimers (connectWebSocket always_constructs "acct2" two_instances_bridge)
      !! "acct2" = None
  ∧ ws_onmessage 1 (Some (MkEvent "ready" "acct2" {[ "number" := JStr "15550000002" ]} 0))
      (connectWebSocket always_constructs "acct2" two_instances_bridge)
    = ws_onmessage 2 (Some (MkEvent "ready" "acct2" {[ "number" := JStr "15550000002" ]} 0))
        (connectWebSocket always_constructs "acct2" two_instances_bridge)
  ∧ instances
      (ws_onmessage 1 (Some (MkEvent "ready" "acct2" {[ "number" := JStr "15550000002" ]} 0))
         (connectWebSocket always_constructs "acct2" two_instances_bridge))
    = alter (update_instance
               (ev_type (MkEvent "ready" "acct2" {[ "number" := JStr "15550000002" ]} 0))
               (ev_data (MkEvent "ready" "acct2" {[ "number" := JStr "15550000002" ]} 0)))
        (ev_instanceId (MkEvent "ready" "acct2" {[ "number" := JStr "15550000002" ]} 0))
        (instances two_instances_bridge)
  ∧ emitted
      (ws_onmessage 1 (Some (MkEvent "ready" "acct2" {[ "number" := JStr "15550000002" ]} 0))
         (connectWebSocket always_constructs "acct2" two_instances_bridge))
    = emitted two_instances_bridge
      ++ [MkEmission
            (mappedEvent
               (ev_type (MkEvent "ready" "acct2" {[ "number" := JStr "15550000002" ]} 0)))
            (payload_of
               (ev_instanceId
                  (MkEvent "ready" "acct2" {[ "number" := JStr "15550000002" ]} 0))
               (ev_data
                  (MkEvent "ready" "acct2" {[ "number" := JStr "15550000002" ]} 0)))].
Proof.
  apply (superseded_socket_still_handled always_constructs "acct2" 1 2
           (MkSocket "acct2" Live)
           (MkEvent "ready" "acct2" {[ "number" := JStr "15550000002" ]} 0)
           two_instances_bridge);
    reflexivity.
Defined.

(** The stale message of the witness does change the registry: the record
    of the instance becomes connected. *)
Example superseded_socket_updates_registry :
  (status <$>
     instances
       (ws_onmessage 1 (Some (MkEvent "ready" "acct2" {[ "number" := JStr "15550000002" ]} 0))
          (connectWebSocket always_constructs "acct2" two_instances_bridge)) !! "acct2")
  = Some (JStr "connected").
Proof. by vm_compute. Qed.

(** C4, counterexample.  After [connect] ran twice for one instance, socket 0
    is superseded by socket 1 and has not yet delivered its close event.  A
    message it then delivers reaches the subscribers, and its close
    notification takes effect: it unregisters socket 1 and schedules a
    reconnect, which later opens a third socket next to the second. *)
Lemma stale_socket_counterexample :
  ∃ b,
    run_trace always_constructs reconnect_trace empty_bridge = Some b
    ∧ wsConnections b !! "acct1" = Some 1
    ∧ superseded 0 b
    ∧ enabled (OnMessage 0 (Some sample_message)) b = true
    ∧ emitted (run always_constructs (OnMessage 0 (Some sample_message)) b)
      = emitted b ++ [MkEmission (EvName "message")
                        {[ "body" := JStr "hi"; "instanceId" := JStr "acct1" ]}]
    ∧ enabled (OnClose 0) b = true
    ∧ wsConnections (run always_constructs (OnClose 0) b) !! "acct1" = None
    ∧ reconnectTimers (run always_constructs (OnClose 0) b) !! "acct1" = Some 0
    ∧ (sockets <$> run_trace always_constructs (reconnect_trace ++ [OnClose 0; OnTimer 0])
                     empty_bridge)
      = Some [MkSocket "acct1" Closed; MkSocket "acct1" Live; MkSocket "acct1" Live].
Proof.
  eexists. split; [by vm_compute|].
  split; [by vm_compute|].
  split; [by exists (MkSocket "acct1" Closing), 1|].
  repeat split; by vm_compute.
Qed.

(** ** An invariant of the reachable states *)

Lemma alter_closing_lookup (l : list Socket) (ws s : nat) (w : Socket) :
  l !! s = Some w →
  ∃ w', alter closing ws l !! s = Some w' ∧ ws_instanceId w' = ws_instanceId w.
Proof.
  intros Hw. destruct (decide (ws = s)) as [->|Hne].
  - exists (closing w). by rewrite list_lookup_alter_eq, Hw.
  - exists w. by rewrite list_lookup_alter_ne.
Qed.

Lemma alter_cleared_lookup (l : list Timeout) (t s : nat) (tm : Timeout) :
  l !! s = Some tm →
  ∃ tm', alter cleared t l !! s = Some tm' ∧ tm_instanceId tm' = tm_instanceId tm.
Proof.
  intros Htm. destruct (decide (t = s)) as [->|Hne].
  - exists (cleared tm). by rewrite list_lookup_alter_eq, Htm.
  - exists tm. by rewrite list_lookup_alter_ne.
Qed.

Lemma disconnectWebSocket_well_formed (instanceId : string) (b : Bridge) :
  well_formed b → well_formed (disconnectWebSocket instanceId b).
Proof.
  intros [Hws Ht].
  destruct (disconnectWebSocket_maps instanceId b) as (Hc & Hr & _).
  split.
  - intros i s. rewrite Hc, disconnectWebSocket_sockets.
    intros [_ Hs]%lookup_delete_Some. destruct (Hws i s Hs) as (w & Hw & <-).
    destruct (wsConnections b !! instanceId); [|by eauto].
    by apply alter_closing_lookup.
  - intros i t. rewrite Hr, disconnectWebSocket_timeouts.
    intros [_ Hs]%lookup_delete_Some. destruct (Ht i t Hs) as (tm & Htm & <-).
    destruct (reconnectTimers b !! instanceId); [|by eauto].
    by apply alter_cleared_lookup.
Qed.

Lemma connectWebSocket_well_formed (ws_constructs : string → bool)
    (instanceId : string) (b : Bridge) :
  well_formed b → well_formed (connectWebSocket ws_constructs instanceId b).
Proof.
  intros Hwf. apply (disconnectWebSocket_well_formed instanceId) in Hwf.
  unfold connectWebSocket. destruct (ws_constructs instanceId); [|done].
  destruct Hwf as [Hws Ht]. split; cbn; [|done].
  intros i s. destruct (decide (instanceId = i)) as [->|Hne].
  - rewrite lookup_insert_eq. intros [= <-].
    exists (MkSocket i Live). by rewrite list_lookup_middle.
  - rewrite lookup_insert_ne by done. intros Hs.
    destruct (Hws i s Hs) as (w & Hw & <-).
    exists w. by rewrite (lookup_app_l_Some _ _ _ _ Hw).
Qed.

Lemma ws_onclose_well_formed (ws : nat) (b : Bridge) :
  well_formed b → well_formed (ws_onclose ws b).
Proof.
  intros [Hws Ht]. unfold ws_onclose.
  destruct (sockets b !! ws) as [w0|] eqn:Hw0; [|done].
  split; cbn.
  - intros i s [_ Hs]%lookup_delete_Some.
    destruct (Hws i s Hs) as (w & Hw & <-).
    destruct (decide (ws = s)) as [->|Hne].
    + exists (MkSocket (ws_instanceId w0) Closed).
      rewrite list_lookup_insert_eq by (by eapply lookup_lt_Some).
      split; [done|]. cbn. congruence.
    + exists w. by rewrite list_lookup_insert_ne.
  - intros i t. destruct (decide (ws_instanceId w0 = i)) as [->|Hne].
    + rewrite lookup_insert_eq. intros [= <-].
      eexists. by rewrite list_lookup_middle.
    + rewrite lookup_insert_ne by done. intros Hi.
      destruct (Ht i t Hi) as (tm & Htm & <-).
      exists tm. by rewrite (lookup_app_l_Some _ _ _ _ Htm).
Qed.

Lemma timer_fire_well_formed (ws_constructs : string → bool) (t : nat) (b : Bridge) :
  well_formed b → well_formed (timer_fire ws_constructs t b).
Proof.
  intros Hwf. unfold timer_fire.
  destruct (timeouts b !! t) as [tm|] eqn:Htm; [|done].
  destruct (tm_state tm); [|done..].
  assert (well_formed
            (set_timeouts (<[t := MkTimeout (tm_instanceId tm) (tm_delay tm) Fired]>) b))
    as Hwf'.
  { destruct Hwf as [Hws Ht]. split; cbn; [done|].
    intros i s Hs. destruct (Ht i s Hs) as (tm' & Htm' & <-).
    destruct (decide (t = s)) as [->|Hne].
    - eexists. rewrite list_lookup_insert_eq by (by eapply lookup_lt_Some).
      split; [done|]. cbn. congruence.
    - exists tm'. by rewrite list_lookup_insert_ne. }
  unfold reconnect_callback. case_bool_decide; [|done].
  by apply connectWebSocket_well_formed.
Qed.

(** The invariant does not look at the registry, the emissions or the
    request log. *)
Lemma well_formed_same_connector (b b' : Bridge) :
  wsConnections b' = wsConnections b → sockets b' = sockets b →
  reconnectTimers b' = reconnectTimers b → timeouts b' = timeouts b →
  well_formed b → well_formed b'.
Proof. unfold well_formed. by intros -> -> -> ->. Qed.

Lemma set_instances_well_formed f (b : Bridge) :
  well_formed b → well_formed (set_instances f b).
Proof. by apply well_formed_same_connector. Qed.

Lemma set_requests_well_formed f (b : Bridge) :
  well_formed b → well_formed (set_requests f b).
Proof. by apply well_formed_same_connector. Qed.

Lemma call_well_formed (ws_constructs : string → bool)
    (fetch : Request → FetchOutcome) (now : float) (c : Command) (b : Bridge) :
  well_formed b → well_formed (call ws_constructs fetch now c b).2.
Proof.
  intros Hwf.
  destruct c; cbn [call];
    unfold drop_result, connect, disconnect, logout, deleteInstance, logout,
      sendText, sendMedia, sendMediaBase64, sendMedia, sendLocation, sendPresence,
      bind, request, field, ret, throw, effect;
    repeat match goal with
      | |- context [match fetch ?r with _ => _ end] =>
          destruct (fetch r) as [?|? ?|[? [[] ? []]]]
      end; cbn;
    repeat first
      [ apply set_instances_well_formed
      | apply set_requests_well_formed
      | apply connectWebSocket_well_formed
      | apply disconnectWebSocket_well_formed ];
    exact Hwf.
Qed.

Lemma run_well_formed (ws_constructs : string → bool) (a : Action) (b : Bridge) :
  well_formed b → well_formed (run ws_constructs a b).
Proof.
  intros Hwf. destruct a as [fetch now c|ws [ev|]|ws|t]; cbn [run].
  - by apply call_well_formed.
  - by eapply well_formed_same_connector; [..|exact Hwf].
  - done.
  - by apply ws_onclose_well_formed.
  - by apply timer_fire_well_formed.
Qed.

Lemma run_trace_well_formed (ws_constructs : string → bool)
    (tr : list Action) (b b' : Bridge) :
  well_formed b → run_trace ws_constructs tr b = Some b' → well_formed b'.
Proof.
  revert b. induction tr as [|a tr IH]; intros b Hwf; cbn.
  - by intros [= <-].
  - destruct (enabled a b); [|done]. apply IH. by apply run_well_formed.
Qed.

(** In every reachable state, the socket and the timer registered for an
    instance were made for that instance. *)
Lemma reachable_well_formed (ws_constructs : string → bool) (b : Bridge) :
  reachable ws_constructs b → well_formed b.
Proof.
  intros [tr Htr]. apply (run_trace_well_formed ws_constructs tr empty_bridge); [|done].
  split; intros i s; cbn; by rewrite lookup_empty.
Qed.

(** ** The scenarios of the specification, run on the model *)

(** [connect] stores the pairing code the remote service returned; the
    streamed [ready] event then sets the status to [connected], clears the
    pairing code, stores the account number and is emitted. *)
Example pairing_then_ready :
  (b ← run_trace always_constructs (take 1 ready_trace) empty_bridge;
   Some (getStatus "acct1" b, getQRCode "acct1" b))
  = Some (JStr "qr", MkQRCode JUndef (JStr "ABCD-1234"))
  ∧ (b ← run_trace always_constructs ready_trace empty_bridge;
     Some (instances b !! "acct1", emitted b))
    = Some (Some (MkInstance "acct1" (JStr "connected") JUndef JUndef
                    (JStr "15551234567") (JStr "Alice")),
            [MkEmission (EvName "ready")
               {[ "number" := JStr "15551234567"; "name" := JStr "Alice";
                  "instanceId" := JStr "acct1" ]}]).
Proof. split; by vm_compute. Qed.

(** [sendText("acct1", "+1 (555) 123-4567", "hi")] sends the destination
    ["15551234567"], and the refusal [{success:false, error:"rate limited"}]
    comes back as an error with that message. *)
Example sendText_rate_limited :
  sendText (refuses 429 "rate limited") 0 "acct1" "+1 (555) 123-4567" "hi" empty_bridge
  = (Throw (Error "rate limited"),
     MkBridge ∅ ∅ ∅ [] [] [] [textRequest "acct1" "15551234567" "hi"]).
Proof. reflexivity. Qed.

(** An accepted [sendText] returns the message the caller sees. *)
Example sendText_accepted :
  (sendText (answers {[ "messageId" := JStr "3EB0" ]}) 1700000000000
     "acct1" "+1 (555) 123-4567" "hi" empty_bridge).1
  = Return {[ "id" := JStr "3EB0"; "from" := JStr ""; "to" := JStr "15551234567";
              "body" := JStr "hi"; "type" := JStr "text";
              "timestamp" := JNum 1700000000; "fromMe" := JBool true ]}.
Proof. by vm_compute. Qed.

(** A logout wins over a reconnect that a superseded socket schedules after
    it: the timer fires, finds the instance gone and opens nothing. *)
Example retry_after_logout_opens_nothing :
  (b ← run_trace always_constructs
         (reconnect_trace ++ [Call (answers ∅) 0 (Logout "acct1"); OnClose 0; OnTimer 0])
         empty_bridge;
   Some (wsConnections b !! "acct1", sockets b, timeouts b))
  = Some (None,
          [MkSocket "acct1" Closed; MkSocket "acct1" Closing],
          [MkTimeout "acct1" reconnect_delay Fired]).
Proof. by vm_compute. Qed.

(** * Further properties of the bridge *)

(** ** The event normalizer and the registry *)

(** X1. Handling an event never adds a record to the registry nor removes
    one, never changes the record of another instance, and never changes the
    [id] of a record. *)
Theorem handleEvent_registry_frame (ev : WhatsmeowEvent) (b : Bridge) :
  dom (instances (handleEvent ev b)) = dom (instances b)
  ∧ (∀ j, j ≠ ev_instanceId ev →
          instances (handleEvent ev b) !! j = instances b !! j)
  ∧ (id <$> instances (handleEvent ev b) !! ev_instanceId ev)
    = (id <$> instances b !! ev_instanceId ev).
Proof.
  rewrite handleEvent_instances. split; [apply dom_alter_L|]. split.
  - intros j Hj. by rewrite lookup_alter_ne.
  - rewrite lookup_alter_eq. destruct (instances b !! ev_instanceId ev) as [i|]; [|done].
    cbn. f_equal. unfold update_instance. by repeat case_decide.
Qed.

(** An event of a type that no branch of the handler tests only adds an
    emission. *)
Lemma handleEvent_other_types (ev : WhatsmeowEvent) (b : Bridge) :
  ev_type ev ∉ ["qr"; "ready"; "disconnected"; "logged_out"] →
  handleEvent ev b
  = set_emitted
      (λ l, l ++ [MkEmission (mappedEvent (ev_type ev))
                             (payload_of (ev_instanceId ev) (ev_data ev))]) b.
Proof.
  intros Hty. unfold handleEvent. f_equal.
  destruct b as [wsc ins rt so ti em rq]. unfold set_instances; cbn. f_equal.
  apply alter_id. intros i _. unfold update_instance.
  assert (∀ t, t ∈ ["qr"; "ready"; "disconnected"; "logged_out"] → ev_type ev ≠ t)
    as Hne by (intros t Ht E; apply Hty; by rewrite E).
  rewrite (decide_False (P := ev_type ev = "qr")) by (apply Hne; repeat constructor).
  rewrite (decide_False (P := ev_type ev = "ready")) by (apply Hne; repeat constructor).
  rewrite decide_False; [done|].
  intros [E|E]; revert E; apply Hne; repeat constructor.
Qed.

(** X2. Only the raw types [qr], [ready], [disconnected] and [logged_out]
    touch the registry: an event of any other type ([connected], [message],
    [message_ack], an unknown type) is emitted and leaves the whole bridge as
    it was otherwise. *)
Theorem handleEvent_passive_types (ev : WhatsmeowEvent) (b : Bridge) :
  ev_type ev ∉ ["qr"; "ready"; "disconnected"; "logged_out"] →
  handleEvent ev b
  = set_emitted
      (λ l, l ++ [MkEmission (mappedEvent (ev_type ev))
                             (payload_of (ev_instanceId ev) (ev_data ev))]) b.
Proof. apply handleEvent_other_types. Qed.

Lemma handleEvent_passive_types_witness :
  handleEvent sample_message pairing_bridge
  = set_emitted
      (λ l, l ++ [MkEmission (mappedEvent (ev_type sample_message))
                             (payload_of (ev_instanceId sample_message)
                                         (ev_data sample_message))])
      pairing_bridge.
Proof.
  apply (handleEvent_passive_types sample_message pairing_bridge).
  apply (bool_decide_unpack _). vm_compute. exact I.
Defined.

(** X3. After a [qr] event for a registered instance, [getStatus] answers
    ['qr'] and [getQRCode] hands out the code and its image exactly as the
    event carried them ([undefined] for one the event did not carry); the
    account number and name of the record are kept. *)
Theorem qr_event_then_lookup (ev : WhatsmeowEvent) (i : WAInstance) (b : Bridge) :
  ev_type ev = "qr" →
  instances b !! ev_instanceId ev = Some i →
  getStatus (ev_instanceId ev) (handleEvent ev b) = JStr "qr"
  ∧ getQRCode (ev_instanceId ev) (handleEvent ev b)
    = MkQRCode (prop (ev_data ev) "qr") (prop (ev_data ev) "qrBase64")
  ∧ (waNumber <$> getInstance (ev_instanceId ev) (handleEvent ev b)) = Some (waNumber i)
  ∧ (waName <$> getInstance (ev_instanceId ev) (handleEvent ev b)) = Some (waName i).
Proof.
  intros Hty Hi. unfold getStatus, getQRCode, getInstance.
  by rewrite handleEvent_instances, lookup_alter_eq, Hi, Hty.
Qed.

Lemma qr_event_then_lookup_witness :
  getStatus "acct1" (handleEvent (MkEvent "qr" "acct1" ∅ 0) pairing_bridge) = JStr "qr"
  ∧ getQRCode "acct1" (handleEvent (MkEvent "qr" "acct1" ∅ 0) pairing_bridge)
    = MkQRCode (prop ∅ "qr") (prop ∅ "qrBase64")
  ∧ (waNumber <$> getInstance "acct1" (handleEvent (MkEvent "qr" "acct1" ∅ 0) pairing_bridge))
    = Some JUndef
  ∧ (waName <$> getInstance "acct1" (handleEvent (MkEvent "qr" "acct1" ∅ 0) pairing_bridge))
    = Some JUndef.
Proof.
  apply (qr_event_then_lookup (MkEvent "qr" "acct1" ∅ 0)
           (MkInstance "acct1" (JStr "qr") (JStr "2@abc")
              (JStr "data:image/png;base64,AAAA") JUndef JUndef)
           pairing_bridge); reflexivity.
Defined.

(** X4. After a [ready] event for a registered instance, whatever its
    status was before, [getStatus] answers ['connected'], [getQRCode] hands
    out nothing, the record holds the number and the name of the event, and
    the event is emitted under the name [ready]. *)
Theorem ready_event_connects (ev : WhatsmeowEvent) (i : WAInstance) (b : Bridge) :
  ev_type ev = "ready" →
  instances b !! ev_instanceId ev = Some i →
  getStatus (ev_instanceId ev) (handleEvent ev b) = JStr "connected"
  ∧ getQRCode (ev_instanceId ev) (handleEvent ev b) = MkQRCode JUndef JUndef
  ∧ getInstance (ev_instanceId ev) (handleEvent ev b)
    = Some (MkInstance (id i) (JStr "connected") JUndef JUndef
              (prop (ev_data ev) "number") (prop (ev_data ev) "name"))
  ∧ (em_key <$> last (emitted (handleEvent ev b))) = Some (EvName "ready").
Proof.
  intros Hty Hi. unfold getStatus, getQRCode, getInstance.
  rewrite handleEvent_instances, handleEvent_emitted, lookup_alter_eq, Hi, Hty.
  by rewrite last_snoc.
Qed.

Lemma ready_event_connects_witness :
  getStatus "acct1" (handleEvent (MkEvent "ready" "acct1" ∅ 0) pairing_bridge)
    = JStr "connected"
  ∧ getQRCode "acct1" (handleEvent (MkEvent "ready" "acct1" ∅ 0) pairing_bridge)
    = MkQRCode JUndef JUndef
  ∧ getInstance "acct1" (handleEvent (MkEvent "ready" "acct1" ∅ 0) pairing_bridge)
    = Some (MkInstance "acct1" (JStr "connected") JUndef JUndef
              (prop ∅ "number") (prop ∅ "name"))
  ∧ (em_key <$> last (emitted (handleEvent (MkEvent "ready" "acct1" ∅ 0) pairing_bridge)))
    = Some (EvName "ready").
Proof.
  apply (ready_event_connects (MkEvent "ready" "acct1" ∅ 0)
           (MkInstance "acct1" (JStr "qr") (JStr "2@abc")
              (JStr "data:image/png;base64,AAAA") JUndef JUndef)
           pairing_bridge); reflexivity.
Defined.

(** X5. The event name under which a raw type is emitted: [connected]
    becomes [authenticated], [logged_out] becomes [auth_failure], and every
    other type, known or not, is emitted under its own name; the one
    exception is a type that names a member of [Object.prototype], for which
    the lookup in the map finds that member instead of a name. *)
Theorem mappedEvent_renames_two (type : string) :
  mappedEvent type =
  if bool_decide (type ∈ object_prototype_members) then EvInherited type
  else EvName (if decide (type = "connected") then "authenticated"
               else if decide (type = "logged_out") then "auth_failure"
               else type).
Proof.
  unfold mappedEvent, eventMap.
  rewrite !lookup_insert, lookup_singleton.
  repeat (destruct (decide (_ = type)) as [<-|?]; [by vm_compute|]).
  by rewrite !decide_False by congruence.
Qed.

(** ** Commands and the state they leave *)

Lemma connectWebSocket_requests (ws_constructs : string → bool)
    (instanceId : string) (b : Bridge) :
  requests (connectWebSocket ws_constructs instanceId b) = requests b.
Proof.
  destruct (disconnectWebSocket_maps instanceId b) as (_ & _ & _ & _ & Hr).
  unfold connectWebSocket. by destruct (ws_constructs instanceId).
Qed.

(** Unfolds a call down to the answer of [fetch]. *)
Ltac unfold_call :=
  cbn [call];
  unfold drop_result, connect, disconnect, logout, deleteInstance, logout,
    sendText, sendMedia, sendMediaBase64, sendMedia, sendLocation, sendPresence,
    bind, request, field, ret, throw, effect;
  repeat match goal with
    | |- context [match ?f ?r with FetchRejected _ => _ | _ => _ end] =>
        destruct (f r) as [?|? ?|[? [[] ? []]]]
    | H : context [match ?f ?r with FetchRejected _ => _ | _ => _ end] |- _ =>
        destruct (f r) as [?|? ?|[? [[] ? []]]]
    end;
  cbn in *.

(** X6. A command that fails, at whatever point, has changed nothing but
    the request log: the registry, the connections, the timers and the
    emitted events are as before the call. *)
Theorem failed_command_changes_nothing
    (ws_constructs : string → bool) (fetch : Request → FetchOutcome) (now : float)
    (c : Command) (e : JsError) (b : Bridge) :
  thrown (call ws_constructs fetch now c b).1 = Some e →
  same_but_requests b (call ws_constructs fetch now c b).2.
Proof. destruct c; unfold_call; by intros. Qed.

Lemma failed_command_changes_nothing_witness :
  same_but_requests pairing_bridge
    (call always_constructs (refuses 500 "instance not found") 0
       (Logout "acct1") pairing_bridge).2.
Proof.
  apply (failed_command_changes_nothing always_constructs
           (refuses 500 "instance not found") 0 (Logout "acct1")
           (Error "instance not found") pairing_bridge).
  reflexivity.
Defined.

(** X7. Every command hands exactly one request to [fetch], a [POST],
    whether it then returns or throws: nothing is retried and nothing is
    skipped. *)
Theorem every_command_one_post
    (ws_constructs : string → bool) (fetch : Request → FetchOutcome) (now : float)
    (c : Command) (b : Bridge) :
  ∃ req, issues (call ws_constructs fetch now c) b req ∧ req_method req = "POST".
Proof.
  unfold issues.
  destruct c; unfold_call; eexists;
    (split;
     [ rewrite ?connectWebSocket_requests; try reflexivity;
       by destruct (disconnectWebSocket_maps instanceId
                      (set_requests (λ l, l ++ [instanceRequest instanceId "logout"]) b))
         as (_ & _ & _ & _ & ->)
     | reflexivity ]).
Qed.

(** X8. The message commands never touch the registry, the connections,
    the timers or the emitted events, whatever the remote service answers. *)
Theorem send_commands_keep_state
    (ws_constructs : string → bool) (fetch : Request → FetchOutcome) (now : float)
    (c : Command) (b : Bridge) :
  is_send c = true →
  same_but_requests b (call ws_constructs fetch now c b).2.
Proof. destruct c; intros Hsend; try discriminate Hsend; by unfold_call. Qed.

Lemma send_commands_keep_state_witness :
  same_but_requests pairing_bridge
    (call always_constructs (answers {[ "messageId" := JStr "3EB0" ]}) 0
       (SendText "acct1" "+1 (555) 123-4567" "hi") pairing_bridge).2.
Proof.
  apply (send_commands_keep_state always_constructs
           (answers {[ "messageId" := JStr "3EB0" ]}) 0
           (SendText "acct1" "+1 (555) 123-4567" "hi") pairing_bridge).
  reflexivity.
Defined.

(** X9. An accepted [disconnect] only rewrites the status: the record of
    the instance stays in the registry with its other fields, no record is
    made for an id that has none, and the streaming connection and its
    timer are neither closed nor removed. *)
Theorem disconnect_keeps_stream
    (fetch : Request → FetchOutcome) (instanceId : string) (b : Bridge) :
  accepted fetch (instanceRequest instanceId "disconnect") = true →
  (disconnect fetch instanceId b).1 = Return tt
  ∧ wsConnections (disconnect fetch instanceId b).2 = wsConnections b
  ∧ reconnectTimers (disconnect fetch instanceId b).2 = reconnectTimers b
  ∧ sockets (disconnect fetch instanceId b).2 = sockets b
  ∧ timeouts (disconnect fetch instanceId b).2 = timeouts b
  ∧ emitted (disconnect fetch instanceId b).2 = emitted b
  ∧ dom (instances (disconnect fetch instanceId b).2) = dom (instances b)
  ∧ instances (disconnect fetch instanceId b).2 !! instanceId
    = mark_disconnected <$> instances b !! instanceId
  ∧ (∀ j, j ≠ instanceId →
          instances (disconnect fetch instanceId b).2 !! j = instances b !! j).
Proof.
  unfold accepted, disconnect, bind, request, effect. intros Hacc.
  destruct (fetch (instanceRequest instanceId "disconnect")) as [e|st e|r]; [done..|].
  rewrite Hacc. cbn.
  do 6 (split; [done|]). split; [apply dom_alter_L|]. split.
  - apply lookup_alter_eq.
  - intros j Hj. by rewrite lookup_alter_ne.
Qed.

Lemma disconnect_keeps_stream_witness :
  (disconnect (answers ∅) "acct1" pairing_bridge).1 = Return tt
  ∧ wsConnections (disconnect (answers ∅) "acct1" pairing_bridge).2
    = wsConnections pairing_bridge
  ∧ reconnectTimers (disconnect (answers ∅) "acct1" pairing_bridge).2
    = reconnectTimers pairing_bridge
  ∧ sockets (disconnect (answers ∅) "acct1" pairing_bridge).2 = sockets pairing_bridge
  ∧ timeouts (disconnect (answers ∅) "acct1" pairing_bridge).2 = timeouts pairing_bridge
  ∧ emitted (disconnect (answers ∅) "acct1" pairing_bridge).2 = emitted pairing_bridge
  ∧ dom (instances (disconnect (answers ∅) "acct1" pairing_bridge).2)
    = dom (instances pairing_bridge)
  ∧ instances (disconnect (answers ∅) "acct1" pairing_bridge).2 !! "acct1"
    = mark_disconnected <$> instances pairing_bridge !! "acct1"
  ∧ (∀ j, j ≠ "acct1" →
          instances (disconnect (answers ∅) "acct1" pairing_bridge).2 !! j
          = instances pairing_bridge !! j).
Proof.
  apply (disconnect_keeps_stream (answers ∅) "acct1" pairing_bridge).
  reflexivity.
Defined.

(** X10. [logout] of one instance, accepted or not, leaves the other
    instances alone: their records, registered connections and registered
    timers are unchanged, and the only socket and timer objects it acts on
    are the ones registered for the instance logged out. *)
Theorem logout_other_instances
    (fetch : Request → FetchOutcome) (instanceId j : string) (b : Bridge) :
  j ≠ instanceId →
  instances (logout fetch instanceId b).2 !! j = instances b !! j
  ∧ wsConnections (logout fetch instanceId b).2 !! j = wsConnections b !! j
  ∧ reconnectTimers (logout fetch instanceId b).2 !! j = reconnectTimers b !! j
  ∧ (∀ s, wsConnections b !! instanceId ≠ Some s →
          sockets (logout fetch instanceId b).2 !! s = sockets b !! s)
  ∧ (∀ t, reconnectTimers b !! instanceId ≠ Some t →
          timeouts (logout fetch instanceId b).2 !! t = timeouts b !! t).
Proof.
  intros Hj.
  destruct (accepted fetch (instanceRequest instanceId "logout")) eqn:Hacc.
  - rewrite (logout_accepted fetch instanceId b Hacc). cbn [snd].
    set (b0 := set_requests _ b).
    destruct (disconnectWebSocket_maps instanceId b0) as (Hc & Hr & Hi & _).
    cbn [instances wsConnections reconnectTimers sockets timeouts set_instances].
    rewrite Hc, Hr, Hi, disconnectWebSocket_sockets, disconnectWebSocket_timeouts.
    rewrite !lookup_delete_ne by done. do 3 (split; [done|]). split.
    + intros s Hs. change (wsConnections b0) with (wsConnections b).
      destruct (wsConnections b !! instanceId) as [ws|]; [|done].
      apply list_lookup_alter_ne. congruence.
    + intros t Ht. change (reconnectTimers b0) with (reconnectTimers b).
      destruct (reconnectTimers b !! instanceId) as [tm|]; [|done].
      apply list_lookup_alter_ne. congruence.
  - by destruct (logout_refused fetch instanceId b Hacc) as [-> _].
Qed.

Lemma logout_other_instances_witness :
  instances (logout (answers ∅) "acct1" two_instances_bridge).2 !! "acct2"
    = instances two_instances_bridge !! "acct2"
  ∧ wsConnections (logout (answers ∅) "acct1" two_instances_bridge).2 !! "acct2"
    = wsConnections two_instances_bridge !! "acct2"
  ∧ reconnectTimers (logout (answers ∅) "acct1" two_instances_bridge).2 !! "acct2"
    = reconnectTimers two_instances_bridge !! "acct2"
  ∧ (∀ s, wsConnections two_instances_bridge !! "acct1" ≠ Some s →
          sockets (logout (answers ∅) "acct1" two_instances_bridge).2 !! s
          = sockets two_instances_bridge !! s)
  ∧ (∀ t, reconnectTimers two_instances_bridge !! "acct1" ≠ Some t →
          timeouts (logout (answers ∅) "acct1" two_instances_bridge).2 !! t
          = timeouts two_instances_bridge !! t).
Proof.
  apply (logout_other_instances (answers ∅) "acct1" "acct2" two_instances_bridge).
  discriminate.
Defined.

(** On that bridge the second instance keeps its record, its live socket and
    its pending timer, while the first one is gone with its socket closing
    and its timer cleared. *)
Example logout_other_instances_run :
  (let b := (logout (answers ∅) "acct1" two_instances_bridge).2 in
   (status <$> instances b !! "acct2", wsConnections b !! "acct2",
    reconnectTimers b !! "acct2", sockets b, tm_state <$> timeouts b,
    instances b !! "acct1", wsConnections b !! "acct1", reconnectTimers b !! "acct1"))
  = (Some (JStr "qr"), Some 1, Some 1,
     [MkSocket "acct1" Closing; MkSocket "acct2" Live],
     [Cleared; Pending], None, None, None).
Proof. by vm_compute. Qed.

(** The state an accepted [connect] leaves. *)
Lemma connect_accepted
    (ws_constructs : string → bool) (fetch : Request → FetchOutcome)
    (instanceId : string) (r : Go.HttpResponse) (d : JsObject) (b : Bridge) :
  fetch (instanceRequest instanceId "connect") = Responded r →
  Go.success (Go.http_body r) = true →
  Go.data (Go.http_body r) = Some d →
  (connect ws_constructs fetch instanceId b).1 = Return (connect_record instanceId d)
  ∧ getInstance instanceId (connect ws_constructs fetch instanceId b).2
    = Some (connect_record instanceId d)
  ∧ getStatus instanceId (connect ws_constructs fetch instanceId b).2
    = nullish_coalesce (prop d "status") (JStr "not_found")
  ∧ (∀ j, j ≠ instanceId →
          instances (connect ws_constructs fetch instanceId b).2 !! j
          = instances b !! j)
  ∧ wsConnections (connect ws_constructs fetch instanceId b).2 !! instanceId
    = (if ws_constructs instanceId then Some (length (sockets b)) else None)
  ∧ reconnectTimers (connect ws_constructs fetch instanceId b).2 !! instanceId = None
  ∧ length (sockets (connect ws_constructs fetch instanceId b).2)
    = length (sockets b) + (if ws_constructs instanceId then 1 else 0).
Proof.
  intros Hfetch Hok Hdata.
  unfold connect, bind, request, field, ret, effect, getInstance, getStatus.
  rewrite Hfetch, Hok, Hdata. cbn [fst snd].
  set (b0 := set_instances _ _).
  destruct (connectWebSocket_keeps ws_constructs instanceId b0) as [Hi _].
  destruct (connectWebSocket_registers ws_constructs instanceId b0) as [Hws Ht].
  rewrite Hi, Hws, Ht, connectWebSocket_sockets, length_app,
    disconnectWebSocket_sockets_length.
  subst b0. cbn [instances set_instances set_requests sockets].
  rewrite lookup_insert_eq. cbn.
  do 3 (split; [done|]). split.
  - intros j Hj. by rewrite lookup_insert_ne.
  - do 2 (split; [done|]). by destruct (ws_constructs instanceId).
Qed.

(** X11. An accepted [connect] whose response has a [data] object stores
    and returns a fresh record made of the response's [status], [qrCode] and
    [waNumber] (nothing survives of a record the id had before: [qrCode] and
    [waName] start out undefined), leaves the other records alone, and ends
    with the instance's retry timer removed and with a newly created socket
    registered for it, or with no socket when none could be constructed. *)
Theorem connect_registers
    (ws_constructs : string → bool) (fetch : Request → FetchOutcome)
    (instanceId : string) (r : Go.HttpResponse) (d : JsObject) (b : Bridge) :
  fetch (instanceRequest instanceId "connect") = Responded r →
  Go.success (Go.http_body r) = true →
  Go.data (Go.http_body r) = Some d →
  (connect ws_constructs fetch instanceId b).1 = Return (connect_record instanceId d)
  ∧ getInstance instanceId (connect ws_constructs fetch instanceId b).2
    = Some (connect_record instanceId d)
  ∧ getStatus instanceId (connect ws_constructs fetch instanceId b).2
    = nullish_coalesce (prop d "status") (JStr "not_found")
  ∧ (∀ j, j ≠ instanceId →
          instances (connect ws_constructs fetch instanceId b).2 !! j
          = instances b !! j)
  ∧ wsConnections (connect ws_constructs fetch instanceId b).2 !! instanceId
    = (if ws_constructs instanceId then Some (length (sockets b)) else None)
  ∧ reconnectTimers (connect ws_constructs fetch instanceId b).2 !! instanceId = None
  ∧ length (sockets (connect ws_constructs fetch instanceId b).2)
    = length (sockets b) + (if ws_constructs instanceId then 1 else 0).
Proof. apply connect_accepted. Qed.

Lemma connect_registers_witness :
  (connect always_constructs (answers {[ "status" := JStr "qr" ]}) "acct1" empty_bridge).1
    = Return (connect_record "acct1" {[ "status" := JStr "qr" ]})
  ∧ getInstance "acct1"
      (connect always_constructs (answers {[ "status" := JStr "qr" ]}) "acct1"
         empty_bridge).2
    = Some (connect_record "acct1" {[ "status" := JStr "qr" ]})
  ∧ getStatus "acct1"
      (connect always_constructs (answers {[ "status" := JStr "qr" ]}) "acct1"
         empty_bridge).2
    = nullish_coalesce (prop {[ "status" := JStr "qr" ]} "status") (JStr "not_found")
  ∧ (∀ j, j ≠ "acct1" →
          instances (connect always_constructs (answers {[ "status" := JStr "qr" ]})
                       "acct1" empty_bridge).2 !! j
          = instances empty_bridge !! j)
  ∧ wsConnections (connect always_constructs (answers {[ "status" := JStr "qr" ]})
                     "acct1" empty_bridge).2 !! "acct1"
    = (if always_constructs "acct1" then Some (length (sockets empty_bridge)) else None)
  ∧ reconnectTimers (connect always_constructs (answers {[ "status" := JStr "qr" ]})
                       "acct1" empty_bridge).2 !! "acct1" = None
  ∧ length (sockets (connect always_constructs (answers {[ "status" := JStr "qr" ]})
                       "acct1" empty_bridge).2)
    = length (sockets empty_bridge) + (if always_constructs "acct1" then 1 else 0).
Proof.
  apply (connect_registers always_constructs (answers {[ "status" := JStr "qr" ]})
           "acct1" (Go.successResponse {[ "status" := JStr "qr" ]})
           {[ "status" := JStr "qr" ]} empty_bridge); reflexivity.
Defined.

(** X12. A response that says [success: true] but has no [data]: the
    commands that read a field of the data ([connect], the text, media and
    location sends) throw a [TypeError] although the remote service accepted
    the request, while [disconnect], [logout], [deleteInstance] and
    [sendPresence], which read nothing, return. *)
Theorem accepted_without_data
    (ws_constructs : string → bool) (now : float) (c : Command)
    (http : Z) (err : option string) (b : Bridge) :
  thrown (call ws_constructs
            (λ _, Responded (Go.jsonResponse http (Go.MkEnvelope true err None)))
            now c b).1
  = match c with
    | Connect _ => Some (TypeError_undefined "status")
    | SendText _ _ _ | SendMedia _ _ _ _ | SendMediaBase64 _ _ _ _ _
    | SendLocation _ _ _ _ _ => Some (TypeError_undefined "messageId")
    | Disconnect _ | Logout _ | DeleteInstance _ | SendPresence _ _ _ => None
    end.
Proof. by destruct c. Qed.

(** X13. An accepted [connect] whose response data has no [status] (or a
    [null] one) registers the instance all the same, and [getStatus] then
    answers ['not_found'] for an instance that [getInstance] does find. *)
Theorem registered_yet_not_found
    (ws_constructs : string → bool) (fetch : Request → FetchOutcome)
    (instanceId : string) (r : Go.HttpResponse) (d : JsObject) (b : Bridge) :
  fetch (instanceRequest instanceId "connect") = Responded r →
  Go.success (Go.http_body r) = true →
  Go.data (Go.http_body r) = Some d →
  d !! "status" = None ∨ d !! "status" = Some JNull →
  is_Some (getInstance instanceId (connect ws_constructs fetch instanceId b).2)
  ∧ getStatus instanceId (connect ws_constructs fetch instanceId b).2
    = JStr "not_found".
Proof.
  intros Hfetch Hok Hdata Hstatus.
  destruct (connect_accepted ws_constructs fetch instanceId r d b Hfetch Hok Hdata)
    as (_ & -> & -> & _).
  split; [by eexists|]. unfold prop. by destruct Hstatus as [-> | ->].
Qed.

Lemma registered_yet_not_found_witness :
  is_Some (getInstance "acct1"
             (connect always_constructs (answers ∅) "acct1" empty_bridge).2)
  ∧ getStatus "acct1" (connect always_constructs (answers ∅) "acct1" empty_bridge).2
    = JStr "not_found".
Proof.
  apply (registered_yet_not_found always_constructs (answers ∅) "acct1"
           (Go.successResponse ∅) ∅ empty_bridge); try reflexivity.
  left. reflexivity.
Defined.

(** ** Timers and reconnection *)

(** X14. The teardown cancels the retry: the timer that was registered
    for the instance is no longer pending after [disconnectWebSocket], and
    if the runtime ran it all the same nothing would happen. *)
Theorem teardown_cancels_retry
    (ws_constructs : string → bool) (instanceId : string) (t : nat) (b : Bridge) :
  reconnectTimers b !! instanceId = Some t →
  timer_pending t (disconnectWebSocket instanceId b) = false
  ∧ timer_fire ws_constructs t (disconnectWebSocket instanceId b)
    = disconnectWebSocket instanceId b
  ∧ reconnectTimers (disconnectWebSocket instanceId b) !! instanceId = None.
Proof.
  intros Ht.
  assert (∀ tm, timeouts (disconnectWebSocket instanceId b) !! t = Some tm →
                tm_state tm ≠ Pending) as Hstate.
  { intros tm. rewrite disconnectWebSocket_timeouts, Ht, list_lookup_alter_eq.
    destruct (timeouts b !! t) as [tm0|]; [|done]. intros [= <-].
    unfold cleared. by destruct (tm_state tm0). }
  split; [|split].
  - unfold timer_pending.
    destruct (timeouts (disconnectWebSocket instanceId b) !! t) as [tm|] eqn:Htm; [|done].
    by rewrite bool_decide_eq_false_2 by by apply Hstate.
  - unfold timer_fire.
    destruct (timeouts (disconnectWebSocket instanceId b) !! t) as [tm|] eqn:Htm; [|done].
    specialize (Hstate tm eq_refl). by destruct (tm_state tm).
  - apply disconnectWebSocket_clears.
Qed.

Lemma teardown_cancels_retry_witness :
  timer_pending 0
    (disconnectWebSocket "acct1"
       (MkBridge ∅ ∅ {[ "acct1" := 0 ]} [MkSocket "acct1" Closed]
                 [MkTimeout "acct1" reconnect_delay Pending] [] [])) = false
  ∧ timer_fire always_constructs 0
      (disconnectWebSocket "acct1"
         (MkBridge ∅ ∅ {[ "acct1" := 0 ]} [MkSocket "acct1" Closed]
                   [MkTimeout "acct1" reconnect_delay Pending] [] []))
    = disconnectWebSocket "acct1"
        (MkBridge ∅ ∅ {[ "acct1" := 0 ]} [MkSocket "acct1" Closed]
                  [MkTimeout "acct1" reconnect_delay Pending] [] [])
  ∧ reconnectTimers
      (disconnectWebSocket "acct1"
         (MkBridge ∅ ∅ {[ "acct1" := 0 ]} [MkSocket "acct1" Closed]
                   [MkTimeout "acct1" reconnect_delay Pending] [] [])) !! "acct1"
    = None.
Proof.
  apply (teardown_cancels_retry always_constructs "acct1" 0
           (MkBridge ∅ ∅ {[ "acct1" := 0 ]} [MkSocket "acct1" Closed]
                     [MkTimeout "acct1" reconnect_delay Pending] [] [])).
  reflexivity.
Defined.

(** X15. The reconnect cycle.  When a socket delivers its close event, the
    connection of its instance is unregistered and a timer of 5000 ms is
    scheduled and registered; when that timer fires while the instance is
    still in the registry (and a socket can be constructed), a new live
    socket is created and registered for the instance and no timer stays
    registered. *)
Theorem close_then_timer_reconnects
    (ws_constructs : string → bool) (ws : nat) (w : Socket) (b : Bridge) :
  sockets b !! ws = Some w →
  is_Some (instances b !! ws_instanceId w) →
  ws_constructs (ws_instanceId w) = true →
  wsConnections (ws_onclose ws b) !! ws_instanceId w = None
  ∧ reconnectTimers (ws_onclose ws b) !! ws_instanceId w = Some (length (timeouts b))
  ∧ timeouts (ws_onclose ws b) !! length (timeouts b)
    = Some (MkTimeout (ws_instanceId w) 5000 Pending)
  ∧ wsConnections (timer_fire ws_constructs (length (timeouts b)) (ws_onclose ws b))
      !! ws_instanceId w = Some (length (sockets b))
  ∧ sockets (timer_fire ws_constructs (length (timeouts b)) (ws_onclose ws b))
      !! length (sockets b) = Some (MkSocket (ws_instanceId w) Live)
  ∧ reconnectTimers (timer_fire ws_constructs (length (timeouts b)) (ws_onclose ws b))
      !! ws_instanceId w = None.
Proof.
  intros Hw Hreg Hok.
  assert (ws_onclose ws b
          = set_reconnectTimers (<[ws_instanceId w := length (timeouts b)]>)
              (set_timeouts (λ l, l ++ [MkTimeout (ws_instanceId w) reconnect_delay Pending])
                 (set_wsConnections (delete (ws_instanceId w))
                    (set_sockets (<[ws := MkSocket (ws_instanceId w) Closed]>) b))))
    as Hclose by (unfold ws_onclose; by rewrite Hw).
  set (b1 := ws_onclose ws b) in *.
  assert (timeouts b1 !! length (timeouts b)
          = Some (MkTimeout (ws_instanceId w) reconnect_delay Pending)) as Htm.
  { rewrite Hclose. cbn. by rewrite list_lookup_middle. }
  split; [rewrite Hclose; cbn; apply lookup_delete_eq|].
  split; [rewrite Hclose; cbn; apply lookup_insert_eq|].
  split; [done|].
  unfold timer_fire. rewrite Htm. cbn [tm_state tm_instanceId tm_delay].
  unfold reconnect_callback. cbn [instances set_timeouts].
  assert (instances b1 = instances b) as -> by by rewrite Hclose.
  rewrite bool_decide_eq_true_2 by done.
  set (b2 := set_timeouts _ b1).
  destruct (connectWebSocket_registers ws_constructs (ws_instanceId w) b2) as [Hws Ht].
  rewrite Hws, Ht, Hok.
  assert (length (sockets b2) = length (sockets b)) as Hlen.
  { subst b2. rewrite Hclose. cbn. apply length_insert. }
  rewrite Hlen. split; [done|]. split; [|done].
  rewrite connectWebSocket_sockets, Hok, <- Hlen.
  rewrite <- (disconnectWebSocket_sockets_length (ws_instanceId w) b2).
  by rewrite list_lookup_middle.
Qed.

Lemma close_then_timer_reconnects_witness :
  wsConnections (ws_onclose 0 pairing_bridge) !! "acct1" = None
  ∧ reconnectTimers (ws_onclose 0 pairing_bridge) !! "acct1"
    = Some (length (timeouts pairing_bridge))
  ∧ timeouts (ws_onclose 0 pairing_bridge) !! length (timeouts pairing_bridge)
    = Some (MkTimeout "acct1" 5000 Pending)
  ∧ wsConnections (timer_fire always_constructs (length (timeouts pairing_bridge))
                     (ws_onclose 0 pairing_bridge)) !! "acct1"
    = Some (length (sockets pairing_bridge))
  ∧ sockets (timer_fire always_constructs (length (timeouts pairing_bridge))
               (ws_onclose 0 pairing_bridge)) !! length (sockets pairing_bridge)
    = Some (MkSocket "acct1" Live)
  ∧ reconnectTimers (timer_fire always_constructs (length (timeouts pairing_bridge))
                       (ws_onclose 0 pairing_bridge)) !! "acct1" = None.
Proof.
  apply (close_then_timer_reconnects always_constructs 0 (MkSocket "acct1" Live)
           pairing_bridge); [reflexivity | | reflexivity].
  apply (bool_decide_unpack _). vm_compute. exact I.
Defined.

(** X16. In every state the bridge can reach from the empty one, by any
    calls of its commands and any callbacks of the runtime, the socket
    registered for an instance is one that was created for that instance,
    and so is the registered timer. *)
Theorem registered_handles_belong
    (ws_constructs : string → bool) (tr : list Action) (b : Bridge) :
  run_trace ws_constructs tr empty_bridge = Some b →
  well_formed b.
Proof.
  intros Htr. apply (run_trace_well_formed ws_constructs tr empty_bridge); [|done].
  split; intros i s; cbn; by rewrite lookup_empty.
Qed.

Lemma registered_handles_belong_witness :
  well_formed (run always_constructs (OnClose 0)
                 (run always_constructs
                    (Call (answers {[ "status" := JStr "qr" ]}) 0 (Connect "acct1"))
                    empty_bridge)).
Proof.
  apply (registered_handles_belong always_constructs
           [Call (answers {[ "status" := JStr "qr" ]}) 0 (Connect "acct1"); OnClose 0]).
  reflexivity.
Defined.

(** ** Cleaning a phone number *)

Lemma digits_of_idempotent (s : string) : digits_of (digits_of s) = digits_of s.
Proof.
  induction s as [|c s IH]; [done|].
  rewrite digits_of_cons. destruct (class_d c) eqn:Hc; [|done].
  by rewrite digits_of_cons, Hc, IH.
Qed.

Lemma digits_of_all_digits (s : string) : all_digits (digits_of s).
Proof.
  unfold all_digits. induction s as [|c s IH]; [constructor|].
  rewrite digits_of_cons. destruct (class_d c) eqn:Hc; [|done].
  cbn [list_ascii_of_string]. by constructor.
Qed.

Lemma digits_of_app (a b : string) : digits_of (a +:+ b) = digits_of a +:+ digits_of b.
Proof.
  induction a as [|c a IH]; [done|].
  rewrite string_app_cons, !digits_of_cons, IH. by destruct (class_d c).
Qed.

Lemma digits_of_length (s : string) :
  (String.length (digits_of s) <= String.length s)%nat.
Proof.
  induction s as [|c s IH]; [done|].
  rewrite digits_of_cons. destruct (class_d c); cbn [String.length]; lia.
Qed.

(** X17. Cleaning is idempotent, on both sides of the wire: cleaning a
    cleaned number again changes nothing, so the Go service, which cleans
    the destination once more, passes on exactly what the bridge sent. *)
Theorem cleaning_idempotent (s : string) :
  replace_global class_D "" (replace_global class_D "" s) = replace_global class_D "" s
  ∧ Go.cleanPhoneNumber (Go.cleanPhoneNumber s) = Go.cleanPhoneNumber s
  ∧ Go.cleanPhoneNumber (replace_global class_D "" s) = replace_global class_D "" s
  ∧ Go.cleanPhoneNumber s = replace_global class_D "" s.
Proof.
  rewrite !replace_non_digits, !cleanPhoneNumber_digits, !digits_of_idempotent.
  done.
Qed.

(** X18. What [cleanPhoneNumber] returns is made of digits only and is
    never longer than its input; it returns its input unchanged exactly
    when the input is made of digits only (the empty string included); and
    cleaning a concatenation is concatenating the cleaned parts. *)
Theorem cleanPhoneNumber_shape (a b : string) :
  all_digits (Go.cleanPhoneNumber a)
  ∧ (String.length (Go.cleanPhoneNumber a) <= String.length a)%nat
  ∧ (Go.cleanPhoneNumber a = a ↔ all_digits a)
  ∧ Go.cleanPhoneNumber (a +:+ b) = Go.cleanPhoneNumber a +:+ Go.cleanPhoneNumber b.
Proof.
  rewrite !cleanPhoneNumber_digits.
  split; [apply digits_of_all_digits|]. split; [apply digits_of_length|].
  split; [|apply digits_of_app]. split.
  - intros <-. apply digits_of_all_digits.
  - unfold all_digits. induction a as [|c a IH]; [done|].
    cbn [list_ascii_of_string]. intros [Hc Ha]%Forall_cons.
    rewrite digits_of_cons, <- go_is_digit_class_d, Hc. by rewrite IH.
Qed.

(** ** Media sends *)

(** X19. [sendMediaBase64] sends one request to [/message/media] whose
    [mediaUrl] is the data URI [data:<mimetype>;base64,<base64>], with the
    destination reduced to its digits and the caption of the options; the
    [filename] of the options is never sent. *)
Theorem sendMediaBase64_request
    (fetch : Request → FetchOutcome) (instanceId to base64 mimetype : string)
    (options : option MediaOptions) (b : Bridge) :
  ∃ r, issues (sendMediaBase64 fetch instanceId to base64 mimetype options) b r
       ∧ req_path r = "/message/media"
       ∧ req_field r "mediaUrl"
         = Some (JStr ("data:" +:+ mimetype +:+ ";base64," +:+ base64))
       ∧ req_field r "to" = Some (JStr (digits_of to))
       ∧ req_field r "caption" = Some (of_opt_string (options ≫= caption))
       ∧ req_field r "filename" = None.
Proof.
  eexists. split.
  - apply bind_request_issues. intros d b'. apply field_keeps_requests.
  - rewrite replace_non_digits. by repeat split.
Qed.

(** * Properties of the Go service's handlers *)

(** Status code and envelope of a handler's response go together. *)
Lemma respond_status_envelope (m : Api.Manager) (h : HandlerCall) :
  if Go.success (Go.http_body (respond m h))
  then Go.http_status (respond m h) = 200%Z
       ∧ Go.error (Go.http_body (respond m h)) = None
       ∧ is_Some (Go.data (Go.http_body (respond m h)))
  else Go.http_status (respond m h) ∈ [400; 500; 501]%Z
       ∧ is_Some (Go.error (Go.http_body (respond m h)))
       ∧ Go.data (Go.http_body (respond m h)) = None.
Proof.
  destruct h as [i|i|i|i|i|[req|]|[req|]|[req|]|[req|]| | |]; cbn [respond];
    unfold Api.ConnectInstance, Api.DisconnectInstance, Api.LogoutInstance,
      Api.GetInstanceStatus, Api.GetQRCodeHandler, Api.SendTextMessageHandler,
      Api.SendMediaMessageHandler, Api.SendPresenceHandler, Api.SendLocationMessage,
      Api.GetContacts, Api.CheckNumber, Api.GetGroups;
    repeat match goal with
      | |- context [let '(_, _) := ?p in _] => destruct p
      | |- context [match ?e with Some _ => _ | None => _ end] => destruct e
      | |- context [decide ?P] => destruct (decide P)
      end;
    cbn; (split; [first [done | repeat constructor]|]); split; by eauto.
Qed.

(** X20. Whatever the session manager answers and whatever the request,
    the status code and the envelope a handler writes agree: a success
    envelope goes out with status 200, has data and has no error; a failure
    envelope goes out with status 400, 500 or 501, has an error message and
    has no data. *)
Theorem handler_status_matches_envelope (m : Api.Manager) (h : HandlerCall) :
  if Go.success (Go.http_body (respond m h))
  then Go.http_status (respond m h) = 200%Z
       ∧ Go.error (Go.http_body (respond m h)) = None
       ∧ is_Some (Go.data (Go.http_body (respond m h)))
  else Go.http_status (respond m h) ∈ [400; 500; 501]%Z
       ∧ is_Some (Go.error (Go.http_body (respond m h)))
       ∧ Go.data (Go.http_body (respond m h)) = None.
Proof. apply respond_status_envelope. Qed.

(** X21. The bridge never looks at the status code, yet against these
    handlers it makes no difference: [request] throws exactly when the
    handler answered with a status other than 200. *)
Theorem request_throws_iff_not_200
    (m : Api.Manager) (h : HandlerCall) (req : Request) (b : Bridge) :
  is_Some (thrown (request (λ _, Responded (respond m h)) req b).1)
  ↔ Go.http_status (respond m h) ≠ 200%Z.
Proof.
  pose proof (respond_status_envelope m h) as Hinv.
  unfold request.
  destruct (Go.success (Go.http_body (respond m h))); cbn.
  - destruct Hinv as (-> & _). split; [by intros [? ?]|done].
  - destruct Hinv as (Hst & _). split; [|by eauto].
    intros _ Heq. rewrite Heq, !elem_of_cons, elem_of_nil in Hst.
    by destruct Hst as [?|[?|[?|[]]]].
Qed.

(** X22. [SendTextMessage] answers with success exactly when the body
    decoded, none of [instanceId], [to] and [text] is empty, and the session
    manager, asked to send to the digits of [to], returned no error; the data
    then carries the manager's message id and the cleaned destination.  It
    answers 400 exactly when the body did not decode or one of the three is
    empty, whatever the manager would say. *)
Theorem text_handler_success
    (m : Api.Manager) (decoded : option Api.SendTextRequest) :
  (Go.success (Go.http_body (Api.SendTextMessageHandler m decoded)) = true
   ↔ ∃ req, decoded = Some req
            ∧ Api.text_InstanceID req ≠ "" ∧ Api.text_To req ≠ ""
            ∧ Api.text_Text req ≠ ""
            ∧ (Api.SendTextMessage m (Api.text_InstanceID req)
                 (digits_of (Api.text_To req)) (Api.text_Text req)).2 = None)
  ∧ (∀ req, decoded = Some req →
            Go.success (Go.http_body (Api.SendTextMessageHandler m decoded)) = true →
            Go.data (Go.http_body (Api.SendTextMessageHandler m decoded))
            = Some {[ "messageId" :=
                        JStr (Api.SendTextMessage m (Api.text_InstanceID req)
                                (digits_of (Api.text_To req)) (Api.text_Text req)).1;
                      "to" := JStr (digits_of (Api.text_To req));
                      "status" := JStr "sent" ]})
  ∧ (Go.http_status (Api.SendTextMessageHandler m decoded) = 400%Z
     ↔ decoded = None
       ∨ ∃ req, decoded = Some req
                ∧ (Api.text_InstanceID req = "" ∨ Api.text_To req = ""
                   ∨ Api.text_Text req = "")).
Proof.
  unfold Api.SendTextMessageHandler. destruct decoded as [req|].
  2: { split; [split; [done | by intros (? & ? & _)]|].
       split; [done|]. split; [by left | done]. }
  rewrite cleanPhoneNumber_digits.
  destruct (decide _) as [Hempty|Hfull].
  { split; [split; [done|]|].
    - intros (? & [= <-] & ? & ? & ? & _). by destruct Hempty as [?|[?|?]].
    - split; [done|]. split; [|done]. intros _. right. by exists req. }
  assert (Api.text_InstanceID req ≠ "" ∧ Api.text_To req ≠ ""
          ∧ Api.text_Text req ≠ "") as (? & ? & ?)
    by (repeat split; intros ?; apply Hfull; auto).
  destruct (Api.SendTextMessage m _ _ _) as [msgID [e|]] eqn:Hsend; cbn.
  - split; [split; [done|]|].
    + intros (? & [= <-] & _ & _ & _ & Hnone). by rewrite Hsend in Hnone.
    + split; [done|]. split; [done|].
      intros [?|(? & [= <-] & [?|[?|?]])]; done.
  - split; [split; [intros _|done]|].
    + exists req. by rewrite Hsend.
    + split; [intros ? [= <-] _; by rewrite Hsend|]. split; [done|].
      intros [?|(? & [= <-] & [?|[?|?]])]; done.
Qed.

(** X23. The validation of [SendTextMessage] runs before the cleaning: a
    destination that is not empty but has no digit (["abc"], ["+"]) passes
    it, and the session manager is asked to send to the empty string; the
    answer is then the manager's. *)
Theorem text_handler_digitless_destination
    (m : Api.Manager) (req : Api.SendTextRequest) :
  Api.text_InstanceID req ≠ "" →
  Api.text_To req ≠ "" →
  Api.text_Text req ≠ "" →
  digits_of (Api.text_To req) = "" →
  Api.SendTextMessageHandler m (Some req)
  = match Api.SendTextMessage m (Api.text_InstanceID req) "" (Api.text_Text req) with
    | (_, Some e) => Go.errorResponse 500 e
    | (msgID, None) =>
        Go.successResponse
          {[ "messageId" := JStr msgID; "to" := JStr ""; "status" := JStr "sent" ]}
    end.
Proof.
  intros Hi Ht Hx Hd. unfold Api.SendTextMessageHandler.
  rewrite cleanPhoneNumber_digits, Hd.
  rewrite decide_False by (by intros [?|[?|?]]).
  by destruct (Api.SendTextMessage m _ _ _) as [msgID [e|]].
Qed.

Lemma text_handler_digitless_destination_witness :
  Api.SendTextMessageHandler accepting_manager
    (Some (Api.MkSendTextRequest "acct1" "abc" "hi"))
  = match Api.SendTextMessage accepting_manager
            (Api.text_InstanceID (Api.MkSendTextRequest "acct1" "abc" "hi")) ""
            (Api.text_Text (Api.MkSendTextRequest "acct1" "abc" "hi")) with
    | (_, Some e) => Go.errorResponse 500 e
    | (msgID, None) =>
        Go.successResponse
          {[ "messageId" := JStr msgID; "to" := JStr ""; "status" := JStr "sent" ]}
    end.
Proof.
  apply (text_handler_digitless_destination accepting_manager
           (Api.MkSendTextRequest "acct1" "abc" "hi"));
    first [discriminate | reflexivity].
Defined.

(** X24. [SendMediaMessage] and [SendPresence] answer with success exactly
    when the body decoded, the required fields are not empty ([instanceId],
    [to], and [mediaUrl] or [presence]; the caption and the media type may be
    empty) and the session manager, given the digits of [to], returned no
    error. *)
Theorem media_and_presence_handlers_success
    (m : Api.Manager) (media : option Api.SendMediaRequest)
    (presence : option Api.SendPresenceRequest) :
  (Go.success (Go.http_body (Api.SendMediaMessageHandler m media)) = true
   ↔ ∃ req, media = Some req
            ∧ Api.media_InstanceID req ≠ "" ∧ Api.media_To req ≠ ""
            ∧ Api.media_MediaURL req ≠ ""
            ∧ (Api.SendMediaMessage m (Api.media_InstanceID req)
                 (digits_of (Api.media_To req)) (Api.media_MediaURL req)
                 (Api.media_Caption req) (Api.media_MediaType req)).2 = None)
  ∧ (Go.success (Go.http_body (Api.SendPresenceHandler m presence)) = true
     ↔ ∃ req, presence = Some req
              ∧ Api.presence_InstanceID req ≠ "" ∧ Api.presence_To req ≠ ""
              ∧ Api.presence_Presence req ≠ ""
              ∧ Api.SendPresence m (Api.presence_InstanceID req)
                  (digits_of (Api.presence_To req)) (Api.presence_Presence req) = None).
Proof.
  split.
  - unfold Api.SendMediaMessageHandler. destruct media as [req|].
    2: { split; [done | by intros (? & ? & _)]. }
    rewrite cleanPhoneNumber_digits. destruct (decide _) as [Hempty|Hfull].
    { split; [done|]. intros (? & [= <-] & ? & ? & ? & _).
      by destruct Hempty as [?|[?|?]]. }
    assert (Api.media_InstanceID req ≠ "" ∧ Api.media_To req ≠ ""
            ∧ Api.media_MediaURL req ≠ "") as (? & ? & ?)
      by (repeat split; intros ?; apply Hfull; auto).
    destruct (Api.SendMediaMessage m _ _ _ _ _) as [msgID [e|]] eqn:Hsend; cbn.
    + split; [done|]. intros (? & [= <-] & _ & _ & _ & Hnone).
      by rewrite Hsend in Hnone.
    + split; [intros _ | done]. exists req. by rewrite Hsend.
  - unfold Api.SendPresenceHandler. destruct presence as [req|].
    2: { split; [done | by intros (? & ? & _)]. }
    rewrite cleanPhoneNumber_digits. destruct (decide _) as [Hempty|Hfull].
    { split; [done|]. intros (? & [= <-] & ? & ? & ? & _).
      by destruct Hempty as [?|[?|?]]. }
    assert (Api.presence_InstanceID req ≠ "" ∧ Api.presence_To req ≠ ""
            ∧ Api.presence_Presence req ≠ "") as (? & ? & ?)
      by (repeat split; intros ?; apply Hfull; auto).
    destruct (Api.SendPresence m _ _ _) as [e|] eqn:Hsend; cbn.
    + split; [done|]. intros (? & [= <-] & _ & _ & _ & Hnone).
      by rewrite Hsend in Hnone.
    + split; [intros _ | done]. by exists req.
Qed.

(** X25. The [GetQRCode] handler answers with success exactly when the
    session manager has a pairing image for the instance or reports it
    connected; an image, when there is one, is handed out even for a
    connected instance, and without an image a connected instance is told
    so while any other gets a 400. *)
Theorem qr_handler_success (m : Api.Manager) (instanceID : string) :
  (Go.success (Go.http_body (Api.GetQRCodeHandler m instanceID)) = true
   ↔ (Api.GetQRCode m instanceID).2 ≠ "" ∨ (Api.GetStatus m instanceID).1 = "connected")
  ∧ ((Api.GetQRCode m instanceID).2 ≠ "" →
     Api.GetQRCodeHandler m instanceID
     = Go.successResponse {[ "qrCode" := JStr (Api.GetQRCode m instanceID).2 ]})
  ∧ ((Api.GetQRCode m instanceID).2 = "" →
     Go.http_status (Api.GetQRCodeHandler m instanceID)
     = if decide ((Api.GetStatus m instanceID).1 = "connected") then 200%Z else 400%Z).
Proof.
  unfold Api.GetQRCodeHandler.
  destruct (Api.GetQRCode m instanceID) as [qr qrBase64].
  destruct (Api.GetStatus m instanceID) as [status info]. cbn [fst snd].
  destruct (decide (qrBase64 = "")) as [->|Hqr];
    [destruct (decide (status = "connected")) as [->|Hst]|]; cbn.
  - split; [split; [by right | done]|]. by split.
  - split; [split; [done | by intros [?|?]]|]. by split.
  - split; [split; [by left | done]|]. by split.
Qed.

(** * The bridge against the Go service *)

(** X26. [connect] against the [ConnectInstance] handler, the session
    manager having connected: the registry record mirrors the service's
    instance, with the status it reported and its account number; the
    service's pairing image lands in [qrCodeBase64], while [qrCode] stays
    undefined, and the service's [message] is dropped. *)
Theorem connect_mirrors_service
    (ws_constructs : string → bool) (fetch : Request → FetchOutcome)
    (m : Api.Manager) (instanceId : string) (inst : Api.Instance) (b : Bridge) :
  fetch (instanceRequest instanceId "connect")
    = Responded (Api.ConnectInstance m instanceId) →
  Api.Connect m instanceId = (inst, None) →
  getInstance instanceId (connect ws_constructs fetch instanceId b).2
    = Some (MkInstance instanceId (JStr (Api.Status inst)) JUndef
              (Api.QRCodeBase64 inst) (Api.WANumber inst) JUndef)
  ∧ getStatus instanceId (connect ws_constructs fetch instanceId b).2
    = JStr (Api.Status inst)
  ∧ getQRCode instanceId (connect ws_constructs fetch instanceId b).2
    = MkQRCode JUndef (Api.QRCodeBase64 inst).
Proof.
  intros Hfetch Hconnect.
  assert (Api.ConnectInstance m instanceId
          = Go.successResponse
              {[ "status" := JStr (Api.Status inst);
                 "qrCode" := Api.QRCodeBase64 inst;
                 "waNumber" := Api.WANumber inst;
                 "message" := JStr (if decide (Api.Status inst = "connected")
                                    then "Already connected"
                                    else "Scan the QR code with WhatsApp") ]})
    as Hresp by (unfold Api.ConnectInstance; by rewrite Hconnect).
  rewrite Hresp in Hfetch.
  destruct (connect_accepted ws_constructs fetch instanceId _ _ b Hfetch
              eq_refl eq_refl) as (_ & Hget & Hstatus & _).
  unfold getQRCode. unfold getInstance in Hget. rewrite Hget, Hstatus.
  done.
Qed.

Lemma connect_mirrors_service_witness :
  getInstance "acct1"
    (connect always_constructs
       (λ _, Responded (Api.ConnectInstance accepting_manager "acct1"))
       "acct1" empty_bridge).2
    = Some (MkInstance "acct1"
              (JStr (Api.Status
                       (Api.MkInstance "qr" (JStr "data:image/png;base64,AAAA") (JStr ""))))
              JUndef
              (Api.QRCodeBase64
                 (Api.MkInstance "qr" (JStr "data:image/png;base64,AAAA") (JStr "")))
              (Api.WANumber
                 (Api.MkInstance "qr" (JStr "data:image/png;base64,AAAA") (JStr "")))
              JUndef)
  ∧ getStatus "acct1"
      (connect always_constructs
         (λ _, Responded (Api.ConnectInstance accepting_manager "acct1"))
         "acct1" empty_bridge).2
    = JStr (Api.Status
              (Api.MkInstance "qr" (JStr "data:image/png;base64,AAAA") (JStr "")))
  ∧ getQRCode "acct1"
      (connect always_constructs
         (λ _, Responded (Api.ConnectInstance accepting_manager "acct1"))
         "acct1" empty_bridge).2
    = MkQRCode JUndef
        (Api.QRCodeBase64
           (Api.MkInstance "qr" (JStr "data:image/png;base64,AAAA") (JStr ""))).
Proof.
  apply (connect_mirrors_service always_constructs
           (λ _, Responded (Api.ConnectInstance accepting_manager "acct1"))
           accepting_manager "acct1"
           (Api.MkInstance "qr" (JStr "data:image/png;base64,AAAA") (JStr ""))
           empty_bridge); reflexivity.
Defined.

(** X27. [sendText] against the [SendTextMessage] handler, end to end.
    When the instance id and the text are not empty, the destination has a
    digit and the session manager sends the message, the caller gets the
    manager's message id back, with the destination reduced to its digits:
    the manager was asked to send to exactly those digits. *)
Theorem sendText_end_to_end
    (fetch : Request → FetchOutcome) (m : Api.Manager) (now : float)
    (instanceId to text msgID : string) (b : Bridge) :
  (∀ i t x, fetch (textRequest i t x)
            = Responded (Api.SendTextMessageHandler m
                           (Some (Api.MkSendTextRequest i t x)))) →
  instanceId ≠ "" → text ≠ "" → has_digit to →
  Api.SendTextMessage m instanceId (digits_of to) text = (msgID, None) →
  (sendText fetch now instanceId to text b).1
  = Return {[ "id" := JStr msgID; "from" := JStr ""; "to" := JStr (digits_of to);
              "body" := JStr text; "type" := JStr "text";
              "timestamp" := JNum (now / 1000)%float; "fromMe" := JBool true ]}.
Proof.
  intros Hfetch Hid Htext Hdigit Hsend.
  unfold sendText, bind, request, field, ret.
  rewrite replace_non_digits, Hfetch. unfold Api.SendTextMessageHandler.
  cbn [Api.text_InstanceID Api.text_To Api.text_Text].
  rewrite decide_False by (by intros [?|[?|?]]).
  rewrite cleanPhoneNumber_digits, digits_of_idempotent, Hsend.
  done.
Qed.

Lemma sendText_end_to_end_witness :
  (sendText (text_service accepting_manager) 0 "acct1" "+1 (555) 123-4567" "hi"
     empty_bridge).1
  = Return {[ "id" := JStr "3EB0"; "from" := JStr "";
              "to" := JStr (digits_of "+1 (555) 123-4567");
              "body" := JStr "hi"; "type" := JStr "text";
              "timestamp" := JNum (0 / 1000)%float; "fromMe" := JBool true ]}.
Proof.
  apply (sendText_end_to_end (text_service accepting_manager) accepting_manager 0
           "acct1" "+1 (555) 123-4567" "hi" "3EB0" empty_bridge);
    first [discriminate | reflexivity | (intros; reflexivity)].
Defined.

(** X28. [sendText] against the [SendTextMessage] handler, the refusals.
    When the instance id or the text is empty, or the destination has no
    digit at all, the bridge still sends the request, the handler refuses it
    in its validation, and the caller gets the handler's message as an
    error; the session manager is not asked anything. *)
Theorem sendText_refused_by_validation
    (fetch : Request → FetchOutcome) (m : Api.Manager) (now : float)
    (instanceId to text : string) (b : Bridge) :
  (∀ i t x, fetch (textRequest i t x)
            = Responded (Api.SendTextMessageHandler m
                           (Some (Api.MkSendTextRequest i t x)))) →
  instanceId = "" ∨ digits_of to = "" ∨ text = "" →
  sendText fetch now instanceId to text b
  = (Throw (Error "instanceId, to, and text are required"),
     set_requests (λ l, l ++ [textRequest instanceId (digits_of to) text]) b).
Proof.
  intros Hfetch Hempty.
  unfold sendText, bind, request.
  rewrite replace_non_digits, Hfetch. unfold Api.SendTextMessageHandler.
  cbn [Api.text_InstanceID Api.text_To Api.text_Text].
  by rewrite decide_True.
Qed.

Lemma sendText_refused_by_validation_witness :
  sendText (text_service accepting_manager) 0 "acct1" "n/a" "hi" empty_bridge
  = (Throw (Error "instanceId, to, and text are required"),
     set_requests (λ l, l ++ [textRequest "acct1" (digits_of "n/a") "hi"]) empty_bridge).
Proof.
  apply (sendText_refused_by_validation (text_service accepting_manager)
           accepting_manager 0 "acct1" "n/a" "hi" empty_bridge).
  - intros. reflexivity.
  - right. left. reflexivity.
Defined.

(** X29. [sendLocation] cannot succeed against this service: whatever the
    body decodes to, [SendLocationMessage] answers with a failure, and the
    call throws its message, either that the body is invalid or that
    location sending is not implemented. *)
Theorem sendLocation_never_succeeds
    (fetch : Request → FetchOutcome)
    (decode : Request → option Api.SendLocationRequest)
    (instanceId to : string) (latitude longitude : float)
    (description : option string) (b : Bridge) :
  (∀ req, fetch req = Responded (Api.SendLocationMessage (decode req))) →
  thrown (sendLocation fetch instanceId to latitude longitude description b).1
  = Some (Error (match decode (locationRequest instanceId (digits_of to)
                                 latitude longitude description) with
                 | Some _ => "Location sending not yet implemented"
                 | None => "Invalid request body"
                 end)).
Proof.
  intros Hfetch. unfold sendLocation, bind, request.
  rewrite replace_non_digits, Hfetch. unfold Api.SendLocationMessage.
  by destruct (decode _).
Qed.

Lemma sendLocation_never_succeeds_witness :
  thrown (sendLocation (λ _, Responded (Api.SendLocationMessage None))
            "acct1" "+1 (555) 123-4567" 0 0 None empty_bridge).1
  = Some (Error (match (λ _ : Request, @None Api.SendLocationRequest)
                         (locationRequest "acct1" (digits_of "+1 (555) 123-4567")
                            0 0 None) with
                 | Some _ => "Location sending not yet implemented"
                 | None => "Invalid request body"
                 end)).
Proof.
  apply (sendLocation_never_succeeds (λ _, Responded (Api.SendLocationMessage None))
           (λ _, None) "acct1" "+1 (555) 123-4567" 0 0 None empty_bridge).
  intros. reflexivity.
Defined.

(** X30. The first message the Go service writes on every new stream, a
    snapshot of type [status], reads as a streamed event of the bridge; the
    bridge emits it under the name [status] with the snapshot's status in
    the payload, and does not apply it: the registry is left as it was. *)
Theorem initial_status_event_not_applied
    (m : Api.Manager) (instanceID : string) (b : Bridge) :
  ∃ ev,
    event_of_message (Api.initialEvent m instanceID) = Some ev
    ∧ ev_type ev = "status"
    ∧ ev_instanceId ev = instanceID
    ∧ instances (handleEvent ev b) = instances b
    ∧ emitted (handleEvent ev b)
      = emitted b ++ [MkEmission (EvName "status") (payload_of instanceID (ev_data ev))]
    ∧ payload_of instanceID (ev_data ev) !! "status"
      = Some (JStr (Api.GetStatus m instanceID).1)
    ∧ getStatus instanceID (handleEvent ev b) = getStatus instanceID b.
Proof.
  eexists. split; [reflexivity|]. cbn [ev_type ev_instanceId ev_data].
  do 2 (split; [done|]).
  match goal with
  | |- instances (handleEvent ?e b) = _ ∧ _ =>
      assert (handleEvent e b
              = set_emitted
                  (λ l, l ++ [MkEmission (mappedEvent (ev_type e))
                                (payload_of (ev_instanceId e) (ev_data e))]) b) as ->
  end.
  { apply handleEvent_other_types. cbn.
    rewrite !elem_of_cons, elem_of_nil. by intros [?|[?|[?|[?|[]]]]]. }
  cbn [instances emitted set_emitted ev_type ev_instanceId ev_data getStatus].
  do 2 (split; [done|]). split; [|done].
  unfold payload_of, Api.initialEvent_data.
  destruct (Api.GetStatus m instanceID) as [status info].
  destruct (Api.GetQRCode m instanceID) as [qr qrBase64].
  by rewrite (lookup_union_Some_l _ _ _ (JStr status)).
Qed.
